(** * The user service of examples/fastapi
    (services/user_service.py, repositories/user_repository.py)

    A shallow embedding of the service layer, of the repository
    Protocol it depends on and of the SQLAlchemy backed repository,
    followed by the properties of the validation and lifecycle rules. *)

From Stdlib Require Import List ZArith NArith Bool Lia String Ascii QArith Qround.
From Stdlib Require Import Permutation Sorted.
Import ListNotations.

Set Implicit Arguments.

Close Scope Q_scope.
Open Scope string_scope.
Open Scope list_scope.
Open Scope Z_scope.

(** ** Python strings

    A [str] is a sequence of Unicode code points; [len] counts code
    points, so the three syllables of a Korean name have length 3. *)

Definition char := N.
Definition str := list char.

Definition len (s : str) : Z := Z.of_nat (List.length s).

Definition str_eqb (a b : str) : bool :=
  if list_eq_dec N.eq_dec a b then true else false.

(** An ASCII literal as a [str]. *)
Definition py (s : string) : str :=
  map N_of_ascii (list_ascii_of_string s).

(** [str.isspace] on one code point: the code points Python treats as
    whitespace when stripping. *)
Definition isspace (c : char) : bool :=
  ((9 <=? c) && (c <=? 13) || (28 <=? c) && (c <=? 32)
   || (c =? 133) || (c =? 160) || (c =? 5760)
   || (8192 <=? c) && (c <=? 8202)
   || (c =? 8232) || (c =? 8233) || (c =? 8239) || (c =? 8287)
   || (c =? 12288))%N.

Fixpoint lstrip (s : str) : str :=
  match s with
  | c :: t => if isspace c then lstrip t else s
  | [] => []
  end.

Definition rstrip (s : str) : str := rev (lstrip (rev s)).

(** [s.strip()] *)
Definition strip (s : str) : str := rstrip (lstrip s).

(** [s.lower()].  Exact on the code points below 128, which are the only
    ones the service lower-cases: every call follows a successful
    [_이메일_형식_검증] (lemma [re_match_pattern_ascii] below).  Other
    code points are left as they are. *)
Definition lower_char (c : char) : char :=
  if ((65 <=? c) && (c <=? 90))%N then (c + 32)%N else c.

Definition lower (s : str) : str := map lower_char s.

(** ** Regular expressions, as far as [re.match] is used

    The email pattern has neither groups to report nor back references,
    so [re.match] succeeds exactly when the subject is in the language
    of the pattern; membership is decided with derivatives. *)

Inductive regex : Type :=
| Void : regex
| Eps : regex
| Class : (char -> bool) -> regex
| Cat : regex -> regex -> regex
| Alt : regex -> regex -> regex
| Star : regex -> regex.

Fixpoint nullable (r : regex) : bool :=
  match r with
  | Void => false
  | Eps => true
  | Class _ => false
  | Cat a b => nullable a && nullable b
  | Alt a b => nullable a || nullable b
  | Star _ => true
  end.

Fixpoint deriv (c : char) (r : regex) : regex :=
  match r with
  | Void => Void
  | Eps => Void
  | Class p => if p c then Eps else Void
  | Cat a b =>
      if nullable a then Alt (Cat (deriv c a) b) (deriv c b)
      else Cat (deriv c a) b
  | Alt a b => Alt (deriv c a) (deriv c b)
  | Star a => Cat (deriv c a) (Star a)
  end.

Fixpoint accepts (r : regex) (s : str) : bool :=
  match s with
  | [] => nullable r
  | c :: t => accepts (deriv c r) t
  end.

(** [r+] and [r{2,}] *)
Definition Plus (r : regex) : regex := Cat r (Star r).
Definition AtLeast2 (r : regex) : regex := Cat r (Cat r (Star r)).

Definition Chr (a : ascii) : regex := Class (N.eqb (N_of_ascii a)).

Definition in_range (lo hi : ascii) (c : char) : bool :=
  ((N_of_ascii lo <=? c) && (c <=? N_of_ascii hi))%N.

Definition one_of (s : string) (c : char) : bool :=
  existsb (N.eqb c) (py s).

(** [^ body $] under [re.match] without flags: [^] is the start of the
    subject, and [$] is its end or the position just before a line feed
    that ends it. *)
Definition re_match (body : regex) (s : str) : bool :=
  accepts body s
  || match rev s with
     | c :: t => (c =? 10)%N && accepts body (rev t)
     | [] => false
     end.

(** [[a-zA-Z0-9._%+-]], [[a-zA-Z0-9.-]] and [[a-zA-Z]] *)
Definition local_class (c : char) : bool :=
  in_range "a" "z" c || in_range "A" "Z" c || in_range "0" "9" c
  || one_of "._%+-" c.

Definition domain_class (c : char) : bool :=
  in_range "a" "z" c || in_range "A" "Z" c || in_range "0" "9" c
  || one_of ".-" c.

Definition alpha_class (c : char) : bool :=
  in_range "a" "z" c || in_range "A" "Z" c.

(** [r'^[a-zA-Z0-9._%+-]+@[a-zA-Z0-9.-]+\.[a-zA-Z]{2,}$'] without its
    anchors, which [re_match] supplies. *)
Definition pattern : regex :=
  Cat (Plus (Class local_class))
    (Cat (Chr "@")
       (Cat (Plus (Class domain_class))
          (Cat (Chr ".") (AtLeast2 (Class alpha_class))))).

(** ** Data model *)

(** Modelled from the spec: the entity of src/domain/user.py, which is
    imported by every source file and declared in none.  [id] and
    [생성일시] are unset until the row is inserted; [활성화] is unset when
    the constructor is not given the flag. *)
Module User.
Record t : Type := mk {
  id : option Z;
  이름 : str;
  이메일 : str;
  활성화 : option bool;
  생성일시 : option Z
}.

(** [user.이름 = v] and [user.이메일 = v] *)
Definition set_이름 (u : t) (v : str) : t :=
  mk (id u) v (이메일 u) (활성화 u) (생성일시 u).
Definition set_이메일 (u : t) (v : str) : t :=
  mk (id u) (이름 u) v (활성화 u) (생성일시 u).
Definition set_활성화 (u : t) (v : option bool) : t :=
  mk (id u) (이름 u) (이메일 u) v (생성일시 u).

Definition has_id (i : Z) (u : t) : bool :=
  match id u with Some j => i =? j | None => false end.
End User.

(** Modelled from the spec: the request shapes of src/dto/request/user.py,
    [CreateRequest {name, email}] and [UpdateRequest {name?, email?}]. *)
Module UserCreateDTO.
Record t : Type := mk { 이름 : str; 이메일 : str }.
End UserCreateDTO.

Module UserUpdateDTO.
Record t : Type := mk { 이름 : option str; 이메일 : option str }.
End UserUpdateDTO.

(** Modelled from the spec: the pagination envelope of
    src/dto/response/user.py, [{items, total, page, page_size, pages}]. *)
Module PaginatedResponse.
Record t (A : Type) : Type := mk {
  items : list A;
  total : Z;
  page : Z;
  page_size : Z;
  pages : Z
}.
End PaginatedResponse.

(** The [ValueError]s of the service, one constructor for each message. *)
Inductive ValueError : Type :=
| NameTooShort : ValueError            (* 이름은 3자 이상이어야 합니다 *)
| NameTooLong : ValueError             (* 이름은 50자 이하여야 합니다 *)
| InvalidEmail : str -> ValueError     (* 올바른 이메일 형식이 아닙니다 *)
| DuplicateName : str -> ValueError    (* 이미 존재하는 이름입니다 *)
| UserNotFound : Z -> ValueError       (* 사용자를 찾을 수 없습니다 *)
| PageTooSmall : ValueError            (* 페이지 번호는 1 이상이어야 합니다 *)
| PageSizeOutOfRange : ValueError.     (* 페이지 크기는 1-100 사이여야 합니다 *)

(** ** The repository Protocol

    [IUserRepository] over a repository state [S].  An operation that
    answers [None] has raised; the repository of this code base raises
    SQLAlchemy's exceptions, never a [ValueError]. *)
Record IUserRepository (S : Type) : Type := {
  생성 : User.t -> S -> option (User.t * S);
  조회 : Z -> S -> option (option User.t * S);
  이름으로_조회 : str -> S -> option (option User.t * S);
  목록_조회 : Z -> Z -> S -> option ((list User.t * Z) * S);
  수정 : User.t -> S -> option (User.t * S);
  삭제 : Z -> S -> option (bool * S)
}.

(** The invocations of the repository, with their arguments, in the
    order they are made. *)
Inductive Call : Type :=
| Call_생성 : User.t -> Call
| Call_조회 : Z -> Call
| Call_이름으로_조회 : str -> Call
| Call_목록_조회 : Z -> Z -> Call
| Call_수정 : User.t -> Call
| Call_삭제 : Z -> Call.

(** ** The monad of the service

    A coroutine of the service, awaited to its end from a repository
    state: how it ends, the state it leaves and the calls it made. *)
Inductive outcome (A : Type) : Type :=
| Returned : A -> outcome A
| Raised : ValueError -> outcome A
| Propagated : outcome A.
Arguments Raised {A} _.
Arguments Propagated {A}.

Definition M (S A : Type) : Type := S -> outcome A * S * list Call.

Definition ret {S A} (a : A) : M S A := fun s => (Returned a, s, []).

Definition raise {S A} (e : ValueError) : M S A := fun s => (Raised e, s, []).

Definition bind {S A B} (m : M S A) (k : A -> M S B) : M S B :=
  fun s =>
    match m s with
    | (Returned a, s1, l1) =>
        match k a s1 with
        | (o, s2, l2) => (o, s2, l1 ++ l2)
        end
    | (Raised e, s1, l1) => (Raised e, s1, l1)
    | (Propagated, s1, l1) => (Propagated, s1, l1)
    end.

(** [await self.repository.op(args)] *)
Definition await {S R} (c : Call) (op : S -> option (R * S)) : M S R :=
  fun s =>
    match op s with
    | Some (r, s1) => (Returned r, s1, [c])
    | None => (Propagated, s, [c])
    end.

Declare Scope service_scope.
Delimit Scope service_scope with service.
Notation "x <- m ;; k" := (bind m (fun x => k))
  (at level 100, m at next level, right associativity) : service_scope.
Notation "m ;; k" := (bind m (fun _ => k))
  (at level 100, right associativity) : service_scope.
Open Scope service_scope.

Definition outcome_of {S A} (r : outcome A * S * list Call) : outcome A :=
  fst (fst r).
Definition state_of {S A} (r : outcome A * S * list Call) : S :=
  snd (fst r).
Definition calls_of {S A} (r : outcome A * S * list Call) : list Call :=
  snd r.

(** ** The service (class UserService) *)

Module UserService.
Section WithRepository.

Context {S : Type}.

(** [self.repository] *)
Variable repository : IUserRepository S.

Definition 최소_이름_길이 : Z := 3.
Definition 최대_이름_길이 : Z := 50.

Definition _이름_길이_검증 (이름 : str) : M S unit :=
  let 이름_길이 := len (strip 이름) in
  if 이름_길이 <? 최소_이름_길이 then raise NameTooShort
  else if 이름_길이 >? 최대_이름_길이 then raise NameTooLong
  else ret tt.

Definition _이메일_형식_검증 (이메일 : str) : M S unit :=
  if negb (re_match pattern 이메일) then raise (InvalidEmail 이메일)
  else ret tt.

(** [if existing:] holds for every entity the repository hands back
    and fails for [None]. *)
Definition _이름_중복_검증 (이름 : str) : M S unit :=
  existing <- await (Call_이름으로_조회 이름)
                    (이름으로_조회 repository 이름) ;;
  match existing with
  | Some _ => raise (DuplicateName 이름)
  | None => ret tt
  end.

Definition 사용자_생성 (dto : UserCreateDTO.t) : M S User.t :=
  _이름_길이_검증 (UserCreateDTO.이름 dto) ;;
  _이메일_형식_검증 (UserCreateDTO.이메일 dto) ;;
  _이름_중복_검증 (UserCreateDTO.이름 dto) ;;
  let user :=
    User.mk None
            (strip (UserCreateDTO.이름 dto))
            (lower (UserCreateDTO.이메일 dto))
            (Some true)
            None in
  await (Call_생성 user) (생성 repository user).

Definition 사용자_조회 (user_id : Z) : M S User.t :=
  user <- await (Call_조회 user_id) (조회 repository user_id) ;;
  match user with
  | None => raise (UserNotFound user_id)
  | Some u => ret u
  end.

(** [UserResponse.from_entity] belongs to the absent
    src/dto/response/user.py and is taken as a parameter.  The source
    defaults [페이지] to 1 and [페이지_크기] to 20. *)
Definition 사용자_목록_조회 {UserResponse : Type}
    (from_entity : User.t -> UserResponse)
    (페이지 페이지_크기 : Z) : M S (PaginatedResponse.t UserResponse) :=
  if 페이지 <? 1 then raise PageTooSmall
  else if negb ((1 <=? 페이지_크기) && (페이지_크기 <=? 100))
  then raise PageSizeOutOfRange
  else
    r <- await (Call_목록_조회 페이지 페이지_크기)
               (목록_조회 repository 페이지 페이지_크기) ;;
    let (users, total) := r in
    let items := map from_entity users in
    ret (PaginatedResponse.mk items total 페이지 페이지_크기
           ((total + 페이지_크기 - 1) / 페이지_크기)).

(** [if dto.이름:] and [if dto.이메일:] are truth tests: they fail on
    [None] and on the empty string.  The two assignments to [user]
    are rebindings of the fetched record, which is then handed to
    [수정]. *)
Definition 사용자_수정 (user_id : Z) (dto : UserUpdateDTO.t) : M S User.t :=
  user <- 사용자_조회 user_id ;;
  user <- match UserUpdateDTO.이름 dto with
          | Some ((_ :: _) as 이름) =>
              _이름_길이_검증 이름 ;;
              (if negb (str_eqb 이름 (User.이름 user))
               then _이름_중복_검증 이름
               else ret tt) ;;
              ret (User.set_이름 user (strip 이름))
          | _ => ret user
          end ;;
  user <- match UserUpdateDTO.이메일 dto with
          | Some ((_ :: _) as 이메일) =>
              _이메일_형식_검증 이메일 ;;
              ret (User.set_이메일 user (lower 이메일))
          | _ => ret user
          end ;;
  await (Call_수정 user) (수정 repository user).

Definition 사용자_삭제 (user_id : Z) : M S bool :=
  사용자_조회 user_id ;;
  await (Call_삭제 user_id) (삭제 repository user_id).

End WithRepository.
End UserService.

(** ** The SQLAlchemy repository (class UserRepository)

    The session is reduced to what the statements of the repository
    observe: the rows of the user table in insertion order, the next
    identifier and a clock for the creation time.  Only the six methods
    of the Protocol are embedded, [목록_조회] with the defaults the
    service leaves in place (no filter, newest first). *)

Module UserRepository.

Record Session : Type := mkSession {
  rows : list User.t;
  next_id : Z;
  clock : Z
}.

(** [result.scalar_one_or_none()]: no row, the row, or
    MultipleResultsFound. *)
Definition scalar_one_or_none {A} (l : list A) : option (option A) :=
  match l with
  | [] => Some None
  | [a] => Some (Some a)
  | _ :: _ :: _ => None
  end.

(** [add], [flush], [refresh]: the row is inserted under its own
    identifier or the next free one and stamped with the clock; a
    taken identifier is an IntegrityError. *)
Definition 생성 (user : User.t) (s : Session) : option (User.t * Session) :=
  let i := match User.id user with Some i => i | None => next_id s end in
  if existsb (User.has_id i) (rows s) then None
  else
    let stamp := match User.생성일시 user with
                 | Some t => t
                 | None => clock s
                 end in
    let stored := User.mk (Some i) (User.이름 user) (User.이메일 user)
                          (User.활성화 user) (Some stamp) in
    Some (stored,
          mkSession (rows s ++ [stored]) (Z.max (next_id s) (i + 1))
                    (clock s + 1)).

(** [select(User).where(User.id == user_id)] *)
Definition 조회 (user_id : Z) (s : Session) : option (option User.t * Session) :=
  match scalar_one_or_none (filter (User.has_id user_id) (rows s)) with
  | Some r => Some (r, s)
  | None => None
  end.

(** [select(User).where(User.이름 == 이름)]: the comparison is on the
    string as it is passed. *)
Definition 이름으로_조회 (이름 : str) (s : Session)
  : option (option User.t * Session) :=
  match scalar_one_or_none
          (filter (fun u => str_eqb (User.이름 u) 이름) (rows s)) with
  | Some r => Some (r, s)
  | None => None
  end.

Definition stamp_of (u : User.t) : Z :=
  match User.생성일시 u with Some t => t | None => 0 end.

Fixpoint insert_desc (u : User.t) (l : list User.t) : list User.t :=
  match l with
  | [] => [u]
  | v :: t => if stamp_of v <? stamp_of u then u :: l
              else v :: insert_desc u t
  end.

(** [order_by(User.생성일시.desc())]; the place of equal or missing
    stamps is the engine's choice, here insertion order. *)
Definition order_by_생성일시_desc (l : list User.t) : list User.t :=
  fold_right insert_desc [] l.

(** The count is taken before ordering and slicing;
    [offset((페이지 - 1) * 페이지_크기).limit(페이지_크기)]. *)
Definition 목록_조회 (페이지 페이지_크기 : Z) (s : Session)
  : option ((list User.t * Z) * Session) :=
  let total := Z.of_nat (List.length (rows s)) in
  let offset := (페이지 - 1) * 페이지_크기 in
  let users := firstn (Z.to_nat 페이지_크기)
                 (skipn (Z.to_nat offset)
                    (order_by_생성일시_desc (rows s))) in
  Some ((users, total), s).

(** [flush], [refresh]: the row of the entity's identifier takes the
    entity's fields; an entity without a row cannot be refreshed. *)
Definition 수정 (user : User.t) (s : Session) : option (User.t * Session) :=
  match User.id user with
  | Some i =>
      if existsb (User.has_id i) (rows s) then
        Some (user,
              mkSession
                (map (fun u => if User.has_id i u then user else u) (rows s))
                (next_id s) (clock s))
      else None
  | None => None
  end.

Definition 삭제 (user_id : Z) (s : Session) : option (bool * Session) :=
  match 조회 user_id s with
  | Some (None, s1) => Some (false, s1)
  | Some (Some _, s1) =>
      Some (true,
            mkSession
              (filter (fun u => negb (User.has_id user_id u)) (rows s1))
              (next_id s1) (clock s1))
  | None => None
  end.

(** [UserRepository] satisfies the Protocol. *)
Definition repository : IUserRepository Session :=
  Build_IUserRepository 생성 조회 이름으로_조회 목록_조회 수정 삭제.

Definition empty : Session := mkSession [] 1 0.

(** [user.활성화 = False], [flush]: the row stays and its flag is
    cleared; an unknown identifier answers [False]. *)
Definition 소프트_삭제 (user_id : Z) (s : Session) : option (bool * Session) :=
  match 조회 user_id s with
  | Some (None, s1) => Some (false, s1)
  | Some (Some _, s1) =>
      Some (true,
            mkSession
              (map (fun u => if User.has_id user_id u
                             then User.set_활성화 u (Some false) else u)
                   (rows s1))
              (next_id s1) (clock s1))
  | None => None
  end.

(** [User.활성화 == flag] in a [where]: a row whose flag is unset
    satisfies neither comparison. *)
Definition flag_is (flag : bool) (u : User.t) : bool :=
  match User.활성화 u with
  | Some b => Bool.eqb b flag
  | None => false
  end.

(** [select(func.count(User.id))], under the flag filter when one is
    given; [count] of a column skips the rows where it is unset. *)
Definition 개수_조회 (활성화_여부 : option bool) (s : Session)
  : option (Z * Session) :=
  let counted :=
    filter (fun u => match User.id u with Some _ => true | None => false end)
           (rows s) in
  let counted := match 활성화_여부 with
                 | Some flag => filter (flag_is flag) counted
                 | None => counted
                 end in
  Some (Z.of_nat (List.length counted), s).







End UserRepository.

(** ** Test data

    The names of tests/test_user_service.py as code points, and sessions
    reached from the empty table through the service alone. *)

Definition 홍길동 : str := [54861; 44600; 46041]%N.
Definition 홍길순 : str := [54861; 44600; 49692]%N.
Definition 김철수 : str := [44608; 52384; 49688]%N.

Definition repo : IUserRepository UserRepository.Session :=
  UserRepository.repository.

(** One user, 홍길동. *)
Definition session_1 : UserRepository.Session :=
  state_of (UserService.사용자_생성 repo
              (UserCreateDTO.mk 홍길동 (py "hong@test.com"))
              UserRepository.empty).

(** Two users, 홍길동 and 김철수. *)
Definition session_2 : UserRepository.Session :=
  state_of (UserService.사용자_생성 repo
              (UserCreateDTO.mk 김철수 (py "kim@test.com"))
              session_1).

(** The number of rows of a session that carry a name. *)
Definition rows_named (이름 : str) (s : UserRepository.Session) : nat :=
  List.length (filter (fun u => str_eqb (User.이름 u) 이름)
                      (UserRepository.rows s)).

(** A field of an update request that passes the truth test: present
    and not the empty string. *)
Definition supplied (field : option str) : option str :=
  match field with
  | Some ((_ :: _) as v) => Some v
  | _ => None
  end.

(** The fetched record after the supplied fields of an update request
    are applied in their normal form. *)
Definition updated_entity (user : User.t) (dto : UserUpdateDTO.t) : User.t :=
  User.mk (User.id user)
          (match supplied (UserUpdateDTO.이름 dto) with
           | Some n => strip n
           | None => User.이름 user
           end)
          (match supplied (UserUpdateDTO.이메일 dto) with
           | Some e => lower e
           | None => User.이메일 user
           end)
          (User.활성화 user) (User.생성일시 user).

(** ceil(total / page_size) over the rationals. *)
Definition ceil_div (total page_size : Z) : Z :=
  Qceiling (total # Z.to_pos page_size).

(** ** Well-formed tables

    What the primary key and the identifier sequence guarantee of a
    table: every row has an identifier below the next one to be given
    out, and no two rows share one. *)
Definition well_formed (s : UserRepository.Session) : Prop :=
  (forall u, In u (UserRepository.rows s) ->
             exists i, User.id u = Some i /\ i < UserRepository.next_id s)
  /\ NoDup (map User.id (UserRepository.rows s)).

(** No two rows of the table carry the same name. *)
Definition names_unique (s : UserRepository.Session) : Prop :=
  NoDup (map User.이름 (UserRepository.rows s)).


(** ** The language of a pattern

    Membership of a word in the language of a regular expression, the
    reading of a pattern that the matcher is measured against. *)
Inductive matches : regex -> str -> Prop :=
| MEps : matches Eps []
| MClass p c : p c = true -> matches (Class p) [c]
| MCat a b s t : matches a s -> matches b t -> matches (Cat a b) (s ++ t)
| MAltL a b s : matches a s -> matches (Alt a b) s
| MAltR a b s : matches b s -> matches (Alt a b) s
| MStar0 a : matches (Star a) []
| MStarS a s t :
    matches a s -> matches (Star a) t -> matches (Star a) (s ++ t).

(** An address as the email pattern reads: a local part, "@", a domain,
    "." and at least two letters. *)
Definition address (s : str) : Prop :=
  exists l d t,
    s = l ++ [64%N] ++ d ++ [46%N] ++ t
    /\ l <> [] /\ forallb local_class l = true
    /\ d <> [] /\ forallb domain_class d = true
    /\ (2 <= List.length t)%nat /\ forallb alpha_class t = true.

(** A string that [strip] leaves as it is. *)
Definition trimmed (s : str) : Prop := strip s = s.

(** * Properties *)

(** ** The validators *)

Section Validators.

Context {S : Type}.
Variable repository : IUserRepository S.

Lemma 이름_길이_검증_short (이름 : str) (s : S) :
  len (strip 이름) < 3 ->
  UserService._이름_길이_검증 이름 s = (Raised NameTooShort, s, []).
Proof.
  intros H. unfold UserService._이름_길이_검증, UserService.최소_이름_길이.
  destruct (Z.ltb_spec (len (strip 이름)) 3); [reflexivity | lia].
Qed.

Lemma 이름_길이_검증_long (이름 : str) (s : S) :
  len (strip 이름) > 50 ->
  UserService._이름_길이_검증 이름 s = (Raised NameTooLong, s, []).
Proof.
  intros H.
  unfold UserService._이름_길이_검증, UserService.최소_이름_길이,
    UserService.최대_이름_길이.
  destruct (Z.ltb_spec (len (strip 이름)) 3); [lia |].
  rewrite Z.gtb_ltb.
  destruct (Z.ltb_spec 50 (len (strip 이름))); [reflexivity | lia].
Qed.

Lemma 이름_길이_검증_ok (이름 : str) (s : S) :
  3 <= len (strip 이름) <= 50 ->
  UserService._이름_길이_검증 이름 s = (Returned tt, s, []).
Proof.
  intros H.
  unfold UserService._이름_길이_검증, UserService.최소_이름_길이,
    UserService.최대_이름_길이.
  destruct (Z.ltb_spec (len (strip 이름)) 3); [lia |].
  rewrite Z.gtb_ltb.
  destruct (Z.ltb_spec 50 (len (strip 이름))); [lia | reflexivity].
Qed.

Lemma 이메일_형식_검증_ok (이메일 : str) (s : S) :
  re_match pattern 이메일 = true ->
  UserService._이메일_형식_검증 이메일 s = (Returned tt, s, []).
Proof.
  intros H. unfold UserService._이메일_형식_검증. rewrite H. reflexivity.
Qed.

Lemma 이메일_형식_검증_bad (이메일 : str) (s : S) :
  re_match pattern 이메일 = false ->
  UserService._이메일_형식_검증 이메일 s
  = (Raised (InvalidEmail 이메일), s, []).
Proof.
  intros H. unfold UserService._이메일_형식_검증. rewrite H. reflexivity.
Qed.

Lemma 이름_중복_검증_free (이름 : str) (s s1 : S) :
  이름으로_조회 repository 이름 s = Some (None, s1) ->
  UserService._이름_중복_검증 repository 이름 s
  = (Returned tt, s1, [Call_이름으로_조회 이름]).
Proof.
  intros H. unfold UserService._이름_중복_검증, bind, await.
  rewrite H. reflexivity.
Qed.

Lemma 이름_중복_검증_taken (이름 : str) (s s1 : S) (existing : User.t) :
  이름으로_조회 repository 이름 s = Some (Some existing, s1) ->
  UserService._이름_중복_검증 repository 이름 s
  = (Raised (DuplicateName 이름), s1, [Call_이름으로_조회 이름]).
Proof.
  intros H. unfold UserService._이름_중복_검증, bind, await.
  rewrite H. reflexivity.
Qed.

Lemma 이름_중복_검증_raised (이름 : str) (s : S) :
  이름으로_조회 repository 이름 s = None ->
  UserService._이름_중복_검증 repository 이름 s
  = (Propagated, s, [Call_이름으로_조회 이름]).
Proof.
  intros H. unfold UserService._이름_중복_검증, bind, await.
  rewrite H. reflexivity.
Qed.

(** The length check leaves the state alone and calls nothing. *)
Lemma 이름_길이_검증_pure (이름 : str) (s : S) :
  exists o, UserService._이름_길이_검증 이름 s = (o, s, [])
            /\ (o = Returned tt <-> 3 <= len (strip 이름) <= 50).
Proof.
  destruct (Z.lt_ge_cases (len (strip 이름)) 3) as [Hs | Hs].
  - exists (Raised NameTooShort). split.
    + now apply 이름_길이_검증_short.
    + split; [discriminate | lia].
  - destruct (Z.lt_ge_cases 50 (len (strip 이름))) as [Hl | Hl].
    + exists (Raised NameTooLong). split.
      * apply 이름_길이_검증_long. lia.
      * split; [discriminate | lia].
    + exists (Returned tt). split.
      * apply 이름_길이_검증_ok. lia.
      * split; [lia | reflexivity].
Qed.

End Validators.

(** ** Creation *)

Section Creation.

Context {S : Type}.
Variable repository : IUserRepository S.

(** The entity 사용자_생성 builds from a request. *)
Let entity (dto : UserCreateDTO.t) : User.t :=
  User.mk None (strip (UserCreateDTO.이름 dto))
          (lower (UserCreateDTO.이메일 dto)) (Some true) None.

(** Every run of 사용자_생성 makes one of three call sequences. *)
Lemma 사용자_생성_calls (dto : UserCreateDTO.t) (s : S) :
  let calls := calls_of (UserService.사용자_생성 repository dto s) in
  calls = []
  \/ calls = [Call_이름으로_조회 (UserCreateDTO.이름 dto)]
  \/ calls = [Call_이름으로_조회 (UserCreateDTO.이름 dto);
              Call_생성 (entity dto)].
Proof.
  unfold UserService.사용자_생성, bind.
  destruct (이름_길이_검증_pure (S := S) (UserCreateDTO.이름 dto) s)
    as [o [-> _]].
  destruct o as [[] | e | ]; try (left; reflexivity).
  unfold UserService._이메일_형식_검증.
  destruct (re_match pattern (UserCreateDTO.이메일 dto)); simpl;
    [| left; reflexivity].
  unfold UserService._이름_중복_검증, bind, await.
  destruct (이름으로_조회 repository (UserCreateDTO.이름 dto) s)
    as [[[existing |] s1] |]; simpl; try (right; left; reflexivity).
  destruct (생성 repository _ s1) as [[created s2] |]; simpl;
    right; right; reflexivity.
Qed.

End Creation.

(** C6.  A create request whose name, trimmed, is shorter than 3 or
    longer than 50 code points ends in a ValueError, and the repository
    is not touched: no uniqueness lookup, no create, the state as it
    was. *)
Theorem create_rejects_bad_name_length
    (S : Type) (repository : IUserRepository S)
    (dto : UserCreateDTO.t) (s : S) :
  len (strip (UserCreateDTO.이름 dto)) < 3
  \/ len (strip (UserCreateDTO.이름 dto)) > 50 ->
  exists e,
    UserService.사용자_생성 repository dto s = (Raised e, s, [])
    /\ (e = NameTooShort \/ e = NameTooLong).
Proof.
  intros [H | H]; unfold UserService.사용자_생성, bind.
  - rewrite (이름_길이_검증_short _ s H). eauto.
  - rewrite (이름_길이_검증_long _ s H). eauto.
Qed.

Lemma create_rejects_bad_name_length_witness :
  exists e,
    UserService.사용자_생성 repo
      (UserCreateDTO.mk [54861%N] (py "hong@test.com")) session_1
    = (Raised e, session_1, [])
    /\ (e = NameTooShort \/ e = NameTooLong).
Proof.
  apply (create_rejects_bad_name_length repo
           (UserCreateDTO.mk [54861%N] (py "hong@test.com")) session_1).
  left. vm_compute. reflexivity.
Defined.

(** C9.  A create request whose email does not match the pattern ends in
    a ValueError with the repository untouched, so nothing is written;
    the error is the malformed-email one whenever the name passes the
    length check, which runs first. *)
Theorem create_rejects_bad_email
    (S : Type) (repository : IUserRepository S)
    (dto : UserCreateDTO.t) (s : S) :
  re_match pattern (UserCreateDTO.이메일 dto) = false ->
  exists e,
    UserService.사용자_생성 repository dto s = (Raised e, s, [])
    /\ (3 <= len (strip (UserCreateDTO.이름 dto)) <= 50 ->
        e = InvalidEmail (UserCreateDTO.이메일 dto)).
Proof.
  intros H. unfold UserService.사용자_생성, bind.
  destruct (Z.lt_ge_cases (len (strip (UserCreateDTO.이름 dto))) 3) as [Hs | Hs].
  - rewrite (이름_길이_검증_short _ s Hs). eexists; split; [reflexivity | lia].
  - destruct (Z.lt_ge_cases 50 (len (strip (UserCreateDTO.이름 dto))))
      as [Hl | Hl].
    + rewrite (@이름_길이_검증_long S _ s) by lia.
      eexists; split; [reflexivity | lia].
    + rewrite (@이름_길이_검증_ok S _ s) by lia.
      rewrite (이메일_형식_검증_bad _ s H).
      eexists; split; [reflexivity | reflexivity].
Qed.

Lemma create_rejects_bad_email_witness :
  exists e,
    UserService.사용자_생성 repo
      (UserCreateDTO.mk 홍길동 (py "invalid-email")) session_1
    = (Raised e, session_1, [])
    /\ (3 <= len (strip 홍길동) <= 50 -> e = InvalidEmail (py "invalid-email")).
Proof.
  apply (create_rejects_bad_email repo
           (UserCreateDTO.mk 홍길동 (py "invalid-email")) session_1).
  vm_compute. reflexivity.
Defined.

(** C2.  When the trimmed name has 3 to 50 code points, the email
    matches the pattern and the repository knows no user under the
    request's name, 사용자_생성 hands the repository an entity whose
    name is the trimmed name and whose email is the lower-cased email,
    and returns what the repository created. *)
Theorem create_valid_normalizes
    (S : Type) (repository : IUserRepository S)
    (dto : UserCreateDTO.t) (s s1 s2 : S) (created : User.t) :
  let user := User.mk None (strip (UserCreateDTO.이름 dto))
                      (lower (UserCreateDTO.이메일 dto)) (Some true) None in
  3 <= len (strip (UserCreateDTO.이름 dto)) <= 50 ->
  re_match pattern (UserCreateDTO.이메일 dto) = true ->
  이름으로_조회 repository (UserCreateDTO.이름 dto) s = Some (None, s1) ->
  생성 repository user s1 = Some (created, s2) ->
  UserService.사용자_생성 repository dto s
  = (Returned created, s2,
     [Call_이름으로_조회 (UserCreateDTO.이름 dto); Call_생성 user]).
Proof.
  intros user Hname Hemail Hfree Hcreate.
  unfold UserService.사용자_생성, bind.
  rewrite (이름_길이_검증_ok _ s Hname).
  rewrite (이메일_형식_검증_ok _ s Hemail).
  rewrite (이름_중복_검증_free repository _ s Hfree).
  unfold await. fold user. rewrite Hcreate. reflexivity.
Qed.

(** The normalisation test of the suite: padded name, upper-case email,
    empty table. *)
Lemma create_valid_normalizes_witness :
  exists created s2,
    UserService.사용자_생성 repo
      (UserCreateDTO.mk (py "  " ++ 홍길동 ++ py "  ") (py "HONG@TEST.COM"))
      UserRepository.empty
    = (Returned created, s2,
       [Call_이름으로_조회 (py "  " ++ 홍길동 ++ py "  ");
        Call_생성 (User.mk None 홍길동 (py "hong@test.com") (Some true) None)]).
Proof.
  eexists. eexists.
  eapply (@create_valid_normalizes _ repo
            (UserCreateDTO.mk (py "  " ++ 홍길동 ++ py "  ")
                              (py "HONG@TEST.COM"))
            UserRepository.empty).
  - vm_compute. split; discriminate.
  - vm_compute. reflexivity.
  - reflexivity.
  - reflexivity.
Defined.

(** C10.  Whatever 사용자_생성 passes to the repository's create carries
    the active flag set to True, never False and never unset. *)
Theorem create_passes_active_user
    (S : Type) (repository : IUserRepository S)
    (dto : UserCreateDTO.t) (s : S) (user : User.t) :
  In (Call_생성 user) (calls_of (UserService.사용자_생성 repository dto s)) ->
  User.활성화 user = Some true.
Proof.
  intros H.
  destruct (사용자_생성_calls repository dto s) as [E | [E | E]];
    cbv zeta in E; rewrite E in H; simpl in H.
  - contradiction.
  - destruct H as [H | []]. discriminate.
  - destruct H as [H | [H | []]]; [discriminate |].
    injection H as <-. reflexivity.
Qed.

Lemma create_passes_active_user_witness :
  In (Call_생성 (User.mk None 홍길동 (py "hong@test.com") (Some true) None))
     (calls_of (UserService.사용자_생성 repo
                  (UserCreateDTO.mk 홍길동 (py "hong@test.com"))
                  UserRepository.empty))
  /\ User.활성화 (User.mk None 홍길동 (py "hong@test.com") (Some true) None)
     = Some true.
Proof.
  assert (H : In (Call_생성 (User.mk None 홍길동 (py "hong@test.com")
                               (Some true) None))
                 (calls_of (UserService.사용자_생성 repo
                              (UserCreateDTO.mk 홍길동 (py "hong@test.com"))
                              UserRepository.empty))).
  { vm_compute. right. left. reflexivity. }
  split; [exact H |].
  exact (create_passes_active_user repo _ UserRepository.empty _ H).
Defined.

(** ** Lookup and deletion *)

Section Lookup.

Context {S : Type}.
Variable repository : IUserRepository S.

Lemma 사용자_조회_absent (user_id : Z) (s s1 : S) :
  조회 repository user_id s = Some (None, s1) ->
  UserService.사용자_조회 repository user_id s
  = (Raised (UserNotFound user_id), s1, [Call_조회 user_id]).
Proof.
  intros H. unfold UserService.사용자_조회, bind, await. rewrite H.
  reflexivity.
Qed.

Lemma 사용자_조회_present (user_id : Z) (s s1 : S) (user : User.t) :
  조회 repository user_id s = Some (Some user, s1) ->
  UserService.사용자_조회 repository user_id s
  = (Returned user, s1, [Call_조회 user_id]).
Proof.
  intros H. unfold UserService.사용자_조회, bind, await. rewrite H.
  reflexivity.
Qed.

End Lookup.

(** C8.  When the repository's get-by-id answers no record, 사용자_조회
    raises the not-found ValueError, and so does 사용자_삭제, which then
    never reaches the repository's delete; when it answers a record,
    사용자_조회 returns that record and 사용자_삭제 returns the boolean
    the repository's delete produced. *)
Theorem lookup_and_delete_not_found
    (S : Type) (repository : IUserRepository S) (user_id : Z) (s s1 : S) :
  (조회 repository user_id s = Some (None, s1) ->
   UserService.사용자_조회 repository user_id s
   = (Raised (UserNotFound user_id), s1, [Call_조회 user_id])
   /\ UserService.사용자_삭제 repository user_id s
      = (Raised (UserNotFound user_id), s1, [Call_조회 user_id]))
  /\ (forall user,
        조회 repository user_id s = Some (Some user, s1) ->
        UserService.사용자_조회 repository user_id s
        = (Returned user, s1, [Call_조회 user_id])
        /\ forall deleted s2,
             삭제 repository user_id s1 = Some (deleted, s2) ->
             UserService.사용자_삭제 repository user_id s
             = (Returned deleted, s2, [Call_조회 user_id; Call_삭제 user_id])).
Proof.
  split.
  - intros H. split.
    + now apply 사용자_조회_absent.
    + unfold UserService.사용자_삭제, bind.
      rewrite (사용자_조회_absent repository _ _ H). reflexivity.
  - intros user H. split.
    + now apply 사용자_조회_present.
    + intros deleted s2 Hd.
      unfold UserService.사용자_삭제, bind.
      rewrite (사용자_조회_present repository _ _ H).
      unfold await. rewrite Hd. reflexivity.
Qed.

(** The two deletion tests of the suite on the table holding 홍길동
    under id 1: id 999 is unknown, id 1 is deleted. *)
Lemma lookup_and_delete_not_found_witness :
  (UserService.사용자_조회 repo 999 session_1
   = (Raised (UserNotFound 999), session_1, [Call_조회 999])
   /\ UserService.사용자_삭제 repo 999 session_1
      = (Raised (UserNotFound 999), session_1, [Call_조회 999]))
  /\ UserService.사용자_삭제 repo 1 session_1
     = (Returned true, UserRepository.mkSession [] 2 1,
        [Call_조회 1; Call_삭제 1]).
Proof.
  split.
  - apply (proj1 (@lookup_and_delete_not_found _ repo 999 session_1 session_1)).
    reflexivity.
  - eapply (proj2 (@lookup_and_delete_not_found _ repo 1 session_1 session_1));
      reflexivity.
Defined.

(** ** Listing *)

(** The page count of the source is the ceiling of total / page_size. *)
Lemma pages_is_ceiling (total page_size : Z) :
  0 < page_size ->
  (total + page_size - 1) / page_size = ceil_div total page_size.
Proof.
  intros Hp. unfold ceil_div, Qceiling, Qfloor, Qopp. simpl Qnum. simpl Qden.
  rewrite Z2Pos.id by exact Hp.
  symmetry. apply Z.div_unique with (r := page_size - 1 - (- total) mod page_size).
  - left. pose proof (Z.mod_pos_bound (- total) page_size Hp). lia.
  - assert (Hn : page_size <> 0) by lia.
    pose proof (Z.div_mod (- total) page_size Hn) as E.
    generalize dependent (- total / page_size).
    generalize ((- total) mod page_size). intros r q E.
    rewrite Z.mul_opp_r. lia.
Qed.

Section Listing.

Context {S UserResponse : Type}.
Variable repository : IUserRepository S.
Variable from_entity : User.t -> UserResponse.

Lemma 사용자_목록_조회_valid (페이지 페이지_크기 : Z) (s : S) :
  1 <= 페이지 -> 1 <= 페이지_크기 <= 100 ->
  UserService.사용자_목록_조회 repository from_entity 페이지 페이지_크기 s
  = match 목록_조회 repository 페이지 페이지_크기 s with
    | Some ((users, total), s1) =>
        (Returned (PaginatedResponse.mk (map from_entity users) total
                     페이지 페이지_크기
                     ((total + 페이지_크기 - 1) / 페이지_크기)),
         s1, [Call_목록_조회 페이지 페이지_크기])
    | None => (Propagated, s, [Call_목록_조회 페이지 페이지_크기])
    end.
Proof.
  intros Hp Hs. unfold UserService.사용자_목록_조회.
  destruct (Z.ltb_spec 페이지 1); [lia |].
  destruct (Z.leb_spec 1 페이지_크기); [| lia].
  destruct (Z.leb_spec 페이지_크기 100); [| lia]. simpl.
  unfold bind, await.
  destruct (목록_조회 repository 페이지 페이지_크기 s) as [[[users total] s1] |];
    reflexivity.
Qed.

Lemma 사용자_목록_조회_invalid (페이지 페이지_크기 : Z) (s : S) :
  페이지 < 1 \/ 페이지_크기 < 1 \/ 100 < 페이지_크기 ->
  exists e,
    UserService.사용자_목록_조회 repository from_entity 페이지 페이지_크기 s
    = (Raised e, s, [])
    /\ (e = PageTooSmall \/ e = PageSizeOutOfRange).
Proof.
  intros H. unfold UserService.사용자_목록_조회.
  destruct (Z.ltb_spec 페이지 1).
  { exists PageTooSmall. split; [reflexivity | now left]. }
  destruct (Z.leb_spec 1 페이지_크기); simpl.
  2: { exists PageSizeOutOfRange. split; [reflexivity | now right]. }
  destruct (Z.leb_spec 페이지_크기 100); simpl.
  { exfalso. lia. }
  exists PageSizeOutOfRange. split; [reflexivity | now right].
Qed.

End Listing.

(** C7.  사용자_목록_조회 raises a ValueError exactly when the page is
    below 1 or the page size is outside 1..100, and then the repository
    is not called at all. *)
Theorem list_rejects_bad_paging
    (S UserResponse : Type) (repository : IUserRepository S)
    (from_entity : User.t -> UserResponse) (페이지 페이지_크기 : Z) (s : S) :
  ((exists e,
      outcome_of (UserService.사용자_목록_조회 repository from_entity
                    페이지 페이지_크기 s) = Raised e)
   <-> 페이지 < 1 \/ 페이지_크기 < 1 \/ 100 < 페이지_크기)
  /\ (페이지 < 1 \/ 페이지_크기 < 1 \/ 100 < 페이지_크기 ->
      exists e,
        UserService.사용자_목록_조회 repository from_entity
          페이지 페이지_크기 s = (Raised e, s, [])).
Proof.
  split; [split |].
  - intros [e He].
    destruct (Z.lt_ge_cases 페이지 1); [now left |].
    destruct (Z.lt_ge_cases 페이지_크기 1); [now right; left |].
    destruct (Z.lt_ge_cases 100 페이지_크기); [now right; right |].
    rewrite 사용자_목록_조회_valid in He by lia.
    destruct (목록_조회 repository 페이지 페이지_크기 s)
      as [[[users total] s1] |]; discriminate.
  - intros H.
    destruct (사용자_목록_조회_invalid repository from_entity s H)
      as [e [-> _]].
    exists e. reflexivity.
  - intros H.
    destruct (사용자_목록_조회_invalid repository from_entity s H)
      as [e [-> _]].
    exists e. reflexivity.
Qed.

(** Page 0, and page sizes 0 and 101, as in the suite. *)
Lemma list_rejects_bad_paging_witness :
  (exists e, outcome_of (UserService.사용자_목록_조회 repo User.이름 0 20
                           session_2) = Raised e)
  /\ (exists e, UserService.사용자_목록_조회 repo User.이름 1 0 session_2
                = (Raised e, session_2, []))
  /\ (exists e, UserService.사용자_목록_조회 repo User.이름 1 101 session_2
                = (Raised e, session_2, [])).
Proof.
  split; [| split].
  - apply (proj1 (@list_rejects_bad_paging _ _ repo User.이름 0 20 session_2)).
    left. lia.
  - apply (proj2 (@list_rejects_bad_paging _ _ repo User.이름 1 0 session_2)).
    right. left. lia.
  - apply (proj2 (@list_rejects_bad_paging _ _ repo User.이름 1 101 session_2)).
    right. right. lia.
Defined.

(** C5.  For a page of at least 1 and a page size of 1..100, whatever
    items and total the repository answers, 사용자_목록_조회 returns the
    envelope with the items converted one by one, the total, page and
    page size as given, and pages = ceil(total / page_size); a total of
    2 with a page size of 20 gives one page. *)
Theorem list_envelope
    (S UserResponse : Type) (repository : IUserRepository S)
    (from_entity : User.t -> UserResponse) (페이지 페이지_크기 : Z)
    (s s1 : S) (users : list User.t) (total : Z) :
  1 <= 페이지 -> 1 <= 페이지_크기 <= 100 -> 0 <= total ->
  목록_조회 repository 페이지 페이지_크기 s = Some ((users, total), s1) ->
  UserService.사용자_목록_조회 repository from_entity 페이지 페이지_크기 s
  = (Returned (PaginatedResponse.mk (map from_entity users) total
                 페이지 페이지_크기 (ceil_div total 페이지_크기)),
     s1, [Call_목록_조회 페이지 페이지_크기])
  /\ (total = 2 -> 페이지_크기 = 20 -> ceil_div total 페이지_크기 = 1).
Proof.
  intros Hp Hs Ht H. split.
  - rewrite 사용자_목록_조회_valid by assumption. rewrite H.
    rewrite pages_is_ceiling by lia. reflexivity.
  - intros -> ->. reflexivity.
Qed.

(** The listing test of the suite: two users, page 1 of size 20. *)
Lemma list_envelope_witness :
  exists items,
    UserService.사용자_목록_조회 repo User.이름 1 20 session_2
    = (Returned (PaginatedResponse.mk items 2 1 20 1), session_2,
       [Call_목록_조회 1 20])
    /\ items = [김철수; 홍길동].
Proof.
  exists [김철수; 홍길동]. split; [| reflexivity].
  pose (users := UserRepository.order_by_생성일시_desc
                   (UserRepository.rows session_2)).
  assert (H : 목록_조회 repo 1 20 session_2 = Some ((users, 2), session_2))
    by (vm_compute; reflexivity).
  assert (Hp : 1 <= 1) by lia.
  assert (Hs : 1 <= 20 <= 100) by lia.
  assert (Ht : 0 <= 2) by lia.
  exact (proj1 (@list_envelope _ _ repo User.이름 1 20 session_2 session_2
                  users 2 Hp Hs Ht H)).
Defined.

(** ** Name uniqueness and padding *)

(** C1.  On the table that holds 홍길동, the request for " 홍길동" (one
    leading space, a fresh email) is not rejected as a duplicate: the
    lookup is made with the padded name, finds nothing, and the
    repository's create is invoked with the trimmed name, so the table
    ends with two rows named 홍길동. *)
Theorem create_padded_name_duplicates :
  let dto := UserCreateDTO.mk (py " " ++ 홍길동) (py "hong2@test.com") in
  strip (UserCreateDTO.이름 dto) = 홍길동
  /\ rows_named 홍길동 session_1 = 1%nat
  /\ exists created s2,
       UserService.사용자_생성 repo dto session_1
       = (Returned created, s2,
          [Call_이름으로_조회 (py " " ++ 홍길동);
           Call_생성 (User.mk None 홍길동 (py "hong2@test.com")
                              (Some true) None)])
       /\ User.이름 created = 홍길동
       /\ rows_named 홍길동 s2 = 2%nat.
Proof.
  cbv zeta. split; [reflexivity | split; [reflexivity |]].
  eexists. eexists. split; [vm_compute; reflexivity | split; reflexivity].
Qed.

(** The same request without the space is rejected, the create never
    invoked. *)
Lemma create_exact_name_rejected :
  UserService.사용자_생성 repo
    (UserCreateDTO.mk 홍길동 (py "hong2@test.com")) session_1
  = (Raised (DuplicateName 홍길동), session_1, [Call_이름으로_조회 홍길동]).
Proof. vm_compute. reflexivity. Qed.

(** C4.  On the table that holds 홍길동 under id 1 and 김철수 under id 2,
    renaming user 1 to " 김철수" is not rejected: the lookup is made
    with the padded name, finds nothing, and the persist is invoked
    with the name 김철수, which user 2 holds; and renaming user 1 to
    "홍길동 ", its own name padded, consults the repository's
    get-by-name although the record's name stays as it is. *)
Theorem update_padded_name_duplicates :
  (exists updated s2,
     UserService.사용자_수정 repo 1
       (UserUpdateDTO.mk (Some (py " " ++ 김철수)) None) session_2
     = (Returned updated, s2,
        [Call_조회 1; Call_이름으로_조회 (py " " ++ 김철수);
         Call_수정 (User.mk (Some 1) 김철수 (py "hong@test.com")
                            (Some true) (Some 0))])
     /\ rows_named 김철수 session_2 = 1%nat
     /\ rows_named 김철수 s2 = 2%nat)
  /\ (exists updated,
        UserService.사용자_수정 repo 1
          (UserUpdateDTO.mk (Some (홍길동 ++ py " ")) None) session_2
        = (Returned updated, session_2,
           [Call_조회 1; Call_이름으로_조회 (홍길동 ++ py " ");
            Call_수정 (User.mk (Some 1) 홍길동 (py "hong@test.com")
                               (Some true) (Some 0))])
        /\ User.이름 updated = 홍길동).
Proof.
  split.
  - eexists. eexists.
    split; [vm_compute; reflexivity | split; reflexivity].
  - eexists. split; [vm_compute; reflexivity | reflexivity].
Qed.

(** Without the padding both behave as the suite expects: the taken
    name is rejected before the persist, the record's own name goes
    through without a lookup. *)
Lemma update_exact_names :
  UserService.사용자_수정 repo 1
    (UserUpdateDTO.mk (Some 김철수) None) session_2
  = (Raised (DuplicateName 김철수), session_2,
     [Call_조회 1; Call_이름으로_조회 김철수])
  /\ exists updated,
       UserService.사용자_수정 repo 1
         (UserUpdateDTO.mk (Some 홍길동) None) session_2
       = (Returned updated, session_2,
          [Call_조회 1;
           Call_수정 (User.mk (Some 1) 홍길동 (py "hong@test.com")
                              (Some true) (Some 0))]).
Proof.
  split; [vm_compute; reflexivity |].
  eexists. vm_compute. reflexivity.
Qed.

(** ** Update *)

(** Case analysis of a run of 사용자_수정: every validator and every
    answer of the repository it meets. *)
Ltac split_run :=
  repeat match goal with
  | |- context [UserService._이름_길이_검증 ?n ?s] =>
      let o := fresh "o" in let Ho := fresh "Ho" in let E := fresh "E" in
      destruct (이름_길이_검증_pure (S := _) n s) as [o [E Ho]];
      rewrite E; clear E; destruct o as [[] | ? | ]
  | |- context [str_eqb ?a ?b] =>
      let E := fresh "Eq" in destruct (str_eqb a b) eqn:E
  | |- context [이름으로_조회 ?r ?n ?s] =>
      let E := fresh "El" in
      destruct (이름으로_조회 r n s) as [[[? |] ?] |] eqn:E
  | |- context [re_match pattern ?e] =>
      let E := fresh "Em" in destruct (re_match pattern e) eqn:E
  | |- context [수정 ?r ?u ?s] =>
      let E := fresh "Eu" in destruct (수정 r u s) as [[? ?] |] eqn:E
  | _ => progress (cbn [negb fst snd app calls_of outcome_of])
  end.

Lemma str_eqb_eq (a b : str) : str_eqb a b = true <-> a = b.
Proof.
  unfold str_eqb. destruct (list_eq_dec N.eq_dec a b); split;
    congruence.
Qed.

Section Update.

Context {S : Type}.
Variable repository : IUserRepository S.

(** Whenever the persist is reached it is the last call, it carries the
    fetched record with the supplied fields in normal form, and those
    fields have passed their validators. *)
Lemma 사용자_수정_safe (user_id : Z) (dto : UserUpdateDTO.t) (s s1 : S)
    (user u : User.t) :
  조회 repository user_id s = Some (Some user, s1) ->
  In (Call_수정 u)
     (calls_of (UserService.사용자_수정 repository user_id dto s)) ->
  u = updated_entity user dto
  /\ last (calls_of (UserService.사용자_수정 repository user_id dto s))
          (Call_조회 user_id) = Call_수정 u
  /\ (forall n, supplied (UserUpdateDTO.이름 dto) = Some n ->
                3 <= len (strip n) <= 50)
  /\ (forall e, supplied (UserUpdateDTO.이메일 dto) = Some e ->
                re_match pattern e = true).
Proof.
  intros H.
  unfold UserService.사용자_수정, bind.
  rewrite (사용자_조회_present repository _ _ H).
  unfold updated_entity. clear H. destruct user as [i nm em ac cr].
  destruct dto as [name email].
  destruct name as [[| c n] |]; destruct email as [[| c' e] |];
    cbn [UserUpdateDTO.이름 UserUpdateDTO.이메일 supplied];
    unfold UserService._이름_중복_검증, UserService._이메일_형식_검증,
      bind, await, ret, raise;
    split_run.
  all: cbn; intros Hin;
    repeat match goal with
           | H : _ \/ _ |- _ => destruct H
           | H : False |- _ => contradiction
           end;
    try discriminate.
  all: match goal with
       | H : Call_수정 _ = Call_수정 _ |- _ => injection H as <-
       end.
  all: split; [reflexivity | split; [reflexivity | split]];
    intros ? [= <-]; try assumption; try (apply Ho; reflexivity).
Qed.

(** When the supplied fields pass their validators and the name, where
    it differs from the record's as given, is not found by the
    repository, the persist is reached. *)
Lemma 사용자_수정_persists (user_id : Z) (dto : UserUpdateDTO.t) (s s1 : S)
    (user : User.t) :
  조회 repository user_id s = Some (Some user, s1) ->
  (forall n, supplied (UserUpdateDTO.이름 dto) = Some n ->
             3 <= len (strip n) <= 50
             /\ (n = User.이름 user
                 \/ exists s2, 이름으로_조회 repository n s1 = Some (None, s2))) ->
  (forall e, supplied (UserUpdateDTO.이메일 dto) = Some e ->
             re_match pattern e = true) ->
  In (Call_수정 (updated_entity user dto))
     (calls_of (UserService.사용자_수정 repository user_id dto s)).
Proof.
  intros H Hn He.
  unfold UserService.사용자_수정, bind.
  rewrite (사용자_조회_present repository _ _ H).
  unfold updated_entity. clear H. destruct user as [i nm em ac cr].
  destruct dto as [name email].
  destruct name as [[| c n] |]; destruct email as [[| c' e] |];
    cbn [UserUpdateDTO.이름 UserUpdateDTO.이메일 supplied] in *;
    try specialize (Hn _ eq_refl); try specialize (He _ eq_refl);
    unfold UserService._이름_중복_검증, UserService._이메일_형식_검증,
      bind, await, ret, raise;
    split_run.
  all: cbn.
  all: try (right; left; reflexivity);
    try (right; right; left; reflexivity).
  all: try congruence.
  all: try (destruct Hn as [Hl _]; apply Ho in Hl; discriminate).
  all: destruct Hn as [_ [Hs | [s2 Hs]]]; cbn in *; try congruence.
  all: apply str_eqb_eq in Hs; congruence.
Qed.

End Update.

(** C3, as the code has it (X7).  For an update request on a record the
    repository finds, each field supplied with a non-empty value is
    validated again (name: 3 to 50 code points after trimming; email:
    the pattern) and applied in normal form (trimmed name, lower-cased
    email) to the fetched record before the persist: whenever the
    persist is invoked it is the last call, the supplied fields have
    passed their validators and the entity it receives is the fetched
    record with exactly those fields replaced; and the persist is
    invoked whenever they pass and the name lookup, where one is made,
    finds nothing.  A field that is absent or the empty string is left
    as fetched. *)
Theorem update_applies_supplied_fields
    (S : Type) (repository : IUserRepository S) (user_id : Z)
    (dto : UserUpdateDTO.t) (s s1 : S) (user : User.t) :
  조회 repository user_id s = Some (Some user, s1) ->
  (forall u,
     In (Call_수정 u)
        (calls_of (UserService.사용자_수정 repository user_id dto s)) ->
     u = updated_entity user dto
     /\ last (calls_of (UserService.사용자_수정 repository user_id dto s))
             (Call_조회 user_id) = Call_수정 u
     /\ (forall n, supplied (UserUpdateDTO.이름 dto) = Some n ->
                   3 <= len (strip n) <= 50)
     /\ (forall e, supplied (UserUpdateDTO.이메일 dto) = Some e ->
                   re_match pattern e = true))
  /\ ((forall n, supplied (UserUpdateDTO.이름 dto) = Some n ->
                 3 <= len (strip n) <= 50
                 /\ (n = User.이름 user
                     \/ exists s2,
                          이름으로_조회 repository n s1 = Some (None, s2))) ->
      (forall e, supplied (UserUpdateDTO.이메일 dto) = Some e ->
                 re_match pattern e = true) ->
      In (Call_수정 (updated_entity user dto))
         (calls_of (UserService.사용자_수정 repository user_id dto s))).
Proof.
  intros H. split.
  - intros u Hin. eapply 사용자_수정_safe; eassumption.
  - intros Hn He. eapply 사용자_수정_persists; eassumption.
Qed.

(** The update test of the suite, with padding and capitals added: user
    1 becomes 홍길순 with the email in lower case. *)
Lemma update_applies_supplied_fields_witness :
  let dto := UserUpdateDTO.mk (Some (py " " ++ 홍길순 ++ py " "))
                              (Some (py "HongSoon@Test.com")) in
  let u := User.mk (Some 1) 홍길순 (py "hongsoon@test.com")
                   (Some true) (Some 0) in
  In (Call_수정 u) (calls_of (UserService.사용자_수정 repo 1 dto session_1))
  /\ last (calls_of (UserService.사용자_수정 repo 1 dto session_1))
          (Call_조회 1) = Call_수정 u
  /\ (forall n, supplied (UserUpdateDTO.이름 dto) = Some n ->
                3 <= len (strip n) <= 50).
Proof.
  intros dto u.
  pose (user := User.mk (Some 1) 홍길동 (py "hong@test.com")
                        (Some true) (Some 0)).
  assert (H : 조회 repo 1 session_1 = Some (Some user, session_1))
    by (vm_compute; reflexivity).
  pose proof (@update_applies_supplied_fields _ repo 1 dto session_1
                session_1 user H) as [Hsafe Hlive].
  assert (Hin : In (Call_수정 u)
                   (calls_of (UserService.사용자_수정 repo 1 dto session_1))).
  { apply Hlive.
    - intros n [= <-]. split.
      + vm_compute. split; discriminate.
      + right. exists session_1. vm_compute. reflexivity.
    - intros e [= <-]. vm_compute. reflexivity. }
  destruct (Hsafe u Hin) as [_ [Hlast [Hname _]]].
  split; [exact Hin | split; [exact Hlast | exact Hname]].
Defined.

(** C3, as stated, fails on the empty string.  The request supplies
    both fields as "": neither is validated (the empty name would fail
    the length check, the empty email the pattern), neither is applied,
    and the update goes through to the persist with the record as it
    was fetched. *)
Lemma update_skips_empty_fields :
  let dto := UserUpdateDTO.mk (Some []) (Some []) in
  let user := User.mk (Some 1) 홍길동 (py "hong@test.com")
                      (Some true) (Some 0) in
  UserService.사용자_수정 repo 1 dto session_1
  = (Returned user, session_1, [Call_조회 1; Call_수정 user])
  /\ UserUpdateDTO.이름 dto = Some []
  /\ UserUpdateDTO.이메일 dto = Some []
  /\ ~ (3 <= len (strip []) <= 50)
  /\ re_match pattern [] = false
  /\ User.이름 user <> strip []
  /\ User.이메일 user <> lower [].
Proof.
  cbv zeta. split; [vm_compute; reflexivity |].
  split; [reflexivity | split; [reflexivity |]].
  split; [vm_compute; intros [H _]; apply H; reflexivity |].
  split; [reflexivity | split; discriminate].
Qed.

(** * Further properties *)

(** ** The matcher and the language of a pattern *)

Lemma matches_cat_inv (a b : regex) (w : str) :
  matches (Cat a b) w ->
  exists s t, w = s ++ t /\ matches a s /\ matches b t.
Proof. intros H. inversion H; subst. eauto. Qed.

Lemma matches_alt_inv (a b : regex) (w : str) :
  matches (Alt a b) w -> matches a w \/ matches b w.
Proof. intros H. inversion H; subst; auto. Qed.

Lemma nullable_matches (r : regex) : nullable r = true <-> matches r [].
Proof.
  split.
  - induction r; simpl; intros H; try discriminate.
    + constructor.
    + apply andb_true_iff in H as [Ha Hb].
      change (@nil char) with (@nil char ++ []). constructor; auto.
    + apply orb_true_iff in H as [H | H];
        [apply MAltL | apply MAltR]; auto.
    + constructor.
  - intros H. remember [] as s eqn:Es.
    induction H; simpl; try reflexivity; try discriminate.
    + apply app_eq_nil in Es as [-> ->].
      rewrite IHmatches1, IHmatches2; reflexivity.
    + rewrite IHmatches by assumption. reflexivity.
    + rewrite IHmatches by assumption. apply orb_true_r.
Qed.

(** A non-empty word of [a*] starts with a non-empty word of [a]. *)
Lemma matches_star_cons (a : regex) (c : char) (s : str) :
  matches (Star a) (c :: s) ->
  exists s1 s2, s = s1 ++ s2 /\ matches a (c :: s1) /\ matches (Star a) s2.
Proof.
  intros H. remember (Star a) as r eqn:Er. remember (c :: s) as w eqn:Ew.
  induction H; try discriminate.
  injection Er as ->.
  destruct s0 as [| c0 s0].
  - simpl in Ew. apply IHmatches2; auto.
  - simpl in Ew. injection Ew as -> <-.
    exists s0, t. auto.
Qed.

Lemma deriv_matches (c : char) (r : regex) (s : str) :
  matches (deriv c r) s <-> matches r (c :: s).
Proof.
  revert s. induction r as [| | p | a IHa b IHb | a IHa b IHb | a IHa];
    intros s; simpl.
  - split; intros H; inversion H.
  - split; intros H; inversion H.
  - destruct (p c) eqn:Ep; split; intros H; inversion H; subst.
    + constructor. assumption.
    + constructor.
    + congruence.
  - split.
    + intros H.
      assert (Hcat : forall w, matches (Cat (deriv c a) b) w ->
                               matches (Cat a b) (c :: w)).
      { intros w Hw. apply matches_cat_inv in Hw as [s1 [s2 [-> [Hd Hb]]]].
        apply IHa in Hd.
        change (c :: s1 ++ s2) with ((c :: s1) ++ s2).
        constructor; assumption. }
      destruct (nullable a) eqn:Na; [| auto].
      apply matches_alt_inv in H as [H | H]; [auto |].
      apply IHb in H. apply nullable_matches in Na.
      change (c :: s) with ([] ++ c :: s). constructor; assumption.
    + intros H. apply matches_cat_inv in H as [s1 [s2 [E [H1 H2]]]].
      destruct s1 as [| c1 s1]; simpl in E.
      * subst s2. apply nullable_matches in H1. rewrite H1.
        apply MAltR. apply IHb. assumption.
      * injection E as <- ->.
        apply IHa in H1.
        destruct (nullable a); [apply MAltL |]; constructor; assumption.
  - split; intros H; apply matches_alt_inv in H as [H | H].
    + apply MAltL. apply IHa. assumption.
    + apply MAltR. apply IHb. assumption.
    + apply MAltL. apply IHa. assumption.
    + apply MAltR. apply IHb. assumption.
  - split.
    + intros H. apply matches_cat_inv in H as [s1 [s2 [-> [Hd Hs]]]].
      apply IHa in Hd.
      change (c :: s1 ++ s2) with ((c :: s1) ++ s2).
      constructor; assumption.
    + intros H. apply matches_star_cons in H as [s1 [s2 [-> [H1 H2]]]].
      constructor; [apply IHa |]; assumption.
Qed.

(** The matcher decides membership in the language of the pattern. *)
Lemma accepts_matches (r : regex) (s : str) :
  accepts r s = true <-> matches r s.
Proof.
  revert r. induction s as [| c s IH]; intros r; simpl.
  - apply nullable_matches.
  - rewrite IH. apply deriv_matches.
Qed.

Lemma matches_class (p : char -> bool) (s : str) :
  matches (Class p) s <-> exists c, s = [c] /\ p c = true.
Proof.
  split.
  - intros H. inversion H; subst. eauto.
  - intros [c [-> H]]. constructor. assumption.
Qed.

Lemma matches_star_class (p : char -> bool) (s : str) :
  matches (Star (Class p)) s <-> forallb p s = true.
Proof.
  split.
  - intros H. remember (Star (Class p)) as r eqn:Er.
    induction H; try discriminate; [reflexivity |].
    injection Er as ->. apply matches_class in H as [c [-> Hc]].
    simpl. rewrite Hc. auto.
  - induction s as [| c s IH]; simpl; intros H.
    + constructor.
    + apply andb_true_iff in H as [Hc Hs].
      change (c :: s) with ([c] ++ s).
      constructor; [constructor |]; auto.
Qed.

Lemma matches_plus_class (p : char -> bool) (s : str) :
  matches (Plus (Class p)) s <-> s <> [] /\ forallb p s = true.
Proof.
  unfold Plus. split.
  - intros H. apply matches_cat_inv in H as [s1 [s2 [-> [H1 H2]]]].
    apply matches_class in H1 as [c [-> Hc]].
    apply matches_star_class in H2. simpl. rewrite Hc, H2.
    split; [discriminate | reflexivity].
  - intros [Hn H]. destruct s as [| c s]; [congruence |].
    simpl in H. apply andb_true_iff in H as [Hc Hs].
    change (c :: s) with ([c] ++ s).
    constructor; [constructor | apply matches_star_class]; assumption.
Qed.

Lemma matches_atleast2_class (p : char -> bool) (s : str) :
  matches (AtLeast2 (Class p)) s
  <-> (2 <= List.length s)%nat /\ forallb p s = true.
Proof.
  unfold AtLeast2. split.
  - intros H. apply matches_cat_inv in H as [s1 [s2 [-> [H1 H2]]]].
    apply matches_class in H1 as [c [-> Hc]].
    apply matches_cat_inv in H2 as [s3 [s4 [-> [H3 H4]]]].
    apply matches_class in H3 as [c' [-> Hc']].
    apply matches_star_class in H4. simpl. rewrite Hc, Hc', H4.
    split; [lia | reflexivity].
  - intros [Hl H]. destruct s as [| c [| c' s]]; simpl in Hl; try lia.
    simpl in H. apply andb_true_iff in H as [Hc H].
    apply andb_true_iff in H as [Hc' Hs].
    change (c :: c' :: s) with ([c] ++ [c'] ++ s).
    constructor; [constructor | constructor;
      [constructor | apply matches_star_class]]; assumption.
Qed.

Lemma matches_chr (a : ascii) (s : str) :
  matches (Chr a) s <-> s = [N_of_ascii a].
Proof.
  unfold Chr. rewrite matches_class. split.
  - intros [c [-> H]]. apply N.eqb_eq in H. subst c. reflexivity.
  - intros ->. eexists. split; [reflexivity | apply N.eqb_refl].
Qed.

(** The language of the email pattern, read off its five parts. *)
Lemma matches_pattern (s : str) : matches pattern s <-> address s.
Proof.
  unfold pattern, address. split.
  - intros H.
    apply matches_cat_inv in H as [l [r1 [-> [Hl H]]]].
    apply matches_cat_inv in H as [at_ [r2 [-> [Hat H]]]].
    apply matches_cat_inv in H as [d [r3 [-> [Hd H]]]].
    apply matches_cat_inv in H as [dot [t [-> [Hdot Ht]]]].
    apply matches_plus_class in Hl as [Hl1 Hl2].
    apply matches_plus_class in Hd as [Hd1 Hd2].
    apply matches_atleast2_class in Ht as [Ht1 Ht2].
    apply matches_chr in Hat. apply matches_chr in Hdot. subst.
    exists l, d, t. repeat split; assumption.
  - intros [l [d [t [-> [Hl1 [Hl2 [Hd1 [Hd2 [Ht1 Ht2]]]]]]]]].
    constructor; [apply matches_plus_class; auto |].
    constructor; [apply matches_chr; reflexivity |].
    constructor; [apply matches_plus_class; auto |].
    constructor; [apply matches_chr; reflexivity |].
    apply matches_atleast2_class; auto.
Qed.

(** [re.match] with the anchors: the subject is in the language, or it
    is a word of the language followed by one line feed. *)
Lemma re_match_spec (body : regex) (s : str) :
  re_match body s = true
  <-> matches body s \/ exists s', s = s' ++ [10%N] /\ matches body s'.
Proof.
  unfold re_match. rewrite orb_true_iff, accepts_matches.
  split; (intros [H | H]; [left; assumption | right]).
  - destruct (rev s) as [| c t] eqn:Er; [discriminate |].
    apply andb_true_iff in H as [Hc Ht].
    apply N.eqb_eq in Hc. subst c. apply accepts_matches in Ht.
    exists (rev t). split; [| assumption].
    rewrite <- (rev_involutive s), Er. reflexivity.
  - destruct H as [s' [-> H]]. rewrite rev_app_distr. simpl.
    rewrite rev_involutive. apply accepts_matches. assumption.
Qed.

(** ** Accepted emails *)

Lemma class_ascii (c : char) :
  local_class c = true \/ domain_class c = true \/ alpha_class c = true ->
  (c < 128)%N.
Proof.
  unfold local_class, domain_class, alpha_class, in_range, one_of.
  intros H. cbn -[N.leb N.eqb] in H.
  repeat rewrite ?orb_true_iff, ?andb_true_iff, ?N.leb_le, ?N.eqb_eq in H.
  lia.
Qed.

Lemma address_ascii (s : str) :
  address s -> Forall (fun c => (c < 128)%N) s.
Proof.
  intros [l [d [t [-> [_ [Hl [_ [Hd [_ Ht]]]]]]]]].
  rewrite forallb_forall in Hl, Hd, Ht.
  repeat (apply Forall_app; split); try (constructor; [lia | constructor]);
    apply Forall_forall; intros c Hc; apply class_ascii; auto.
Qed.

(** Every email the validator lets through is made of code points
    below 128, the ones [lower] is exact on. *)
Lemma re_match_pattern_ascii (s : str) :
  re_match pattern s = true -> Forall (fun c => (c < 128)%N) s.
Proof.
  intros H. apply re_match_spec in H as [H | [s' [-> H]]];
    apply matches_pattern in H; apply address_ascii in H; [assumption |].
  apply Forall_app. split; [assumption | constructor; [lia | constructor]].
Qed.

Lemma lower_char_class (c : char) :
  (local_class c = true -> local_class (lower_char c) = true)
  /\ (domain_class c = true -> domain_class (lower_char c) = true)
  /\ (alpha_class c = true -> alpha_class (lower_char c) = true).
Proof.
  unfold lower_char.
  destruct ((65 <=? c) && (c <=? 90))%N eqn:E; [| tauto].
  apply andb_true_iff in E as [E1 E2].
  apply N.leb_le in E1, E2.
  assert (H : in_range "a" "z" (c + 32)%N = true).
  { unfold in_range. apply andb_true_iff.
    vm_compute N_of_ascii. split; apply N.leb_le; lia. }
  unfold local_class, domain_class, alpha_class. rewrite H.
  repeat split; reflexivity.
Qed.

Lemma lower_char_idem (c : char) : lower_char (lower_char c) = lower_char c.
Proof.
  unfold lower_char.
  destruct ((65 <=? c) && (c <=? 90))%N eqn:E.
  - apply andb_true_iff in E as [E1 E2]. apply N.leb_le in E1, E2.
    destruct ((65 <=? c + 32) && (c + 32 <=? 90))%N eqn:E';
      [| reflexivity].
    apply andb_true_iff in E' as [_ E']. apply N.leb_le in E'. lia.
  - rewrite E. reflexivity.
Qed.

Lemma lower_idem (s : str) : lower (lower s) = lower s.
Proof.
  unfold lower. rewrite map_map. apply map_ext. apply lower_char_idem.
Qed.

Lemma forallb_lower (p : char -> bool) (l : str) :
  (forall c, p c = true -> p (lower_char c) = true) ->
  forallb p l = true -> forallb p (lower l) = true.
Proof.
  intros Hp. unfold lower. rewrite !forallb_forall. intros H c Hc.
  apply in_map_iff in Hc as [c0 [<- Hc0]]. auto.
Qed.

Lemma address_lower (s : str) : address s -> address (lower s).
Proof.
  intros [l [d [t [-> [Hl1 [Hl2 [Hd1 [Hd2 [Ht1 Ht2]]]]]]]]].
  exists (lower l), (lower d), (lower t). unfold lower in *.
  rewrite !map_app. simpl map. rewrite length_map.
  split; [reflexivity |].
  split; [destruct l; [congruence | discriminate] |].
  split; [apply forallb_lower; [apply lower_char_class | assumption] |].
  split; [destruct d; [congruence | discriminate] |].
  split; [apply forallb_lower; [apply lower_char_class | assumption] |].
  split; [assumption |].
  apply forallb_lower; [apply lower_char_class | assumption].
Qed.

(** Lower-casing keeps an accepted email accepted. *)
Lemma re_match_lower (s : str) :
  re_match pattern s = true -> re_match pattern (lower s) = true.
Proof.
  intros H. apply re_match_spec. apply re_match_spec in H.
  destruct H as [H | [s' [-> H]]]; apply matches_pattern in H;
    apply address_lower in H; apply matches_pattern in H.
  - left. assumption.
  - right. exists (lower s'). split; [| assumption].
    unfold lower. rewrite map_app. reflexivity.
Qed.

(** ** Stripping *)

Lemma lstrip_split (s : str) :
  exists p, s = p ++ lstrip s /\ forallb isspace p = true.
Proof.
  induction s as [| c s [p [E Hp]]]; simpl.
  - exists []. split; reflexivity.
  - destruct (isspace c) eqn:Ec.
    + exists (c :: p). simpl. rewrite Ec, Hp. split; [congruence | reflexivity].
    + exists []. split; reflexivity.
Qed.

Lemma lstrip_head (s : str) :
  match lstrip s with c :: _ => isspace c = false | [] => True end.
Proof.
  induction s as [| c s IH]; simpl; [exact I |].
  destruct (isspace c) eqn:Ec; [assumption | simpl; assumption].
Qed.

Lemma lstrip_fixed (s : str) :
  match s with c :: _ => isspace c = false | [] => True end ->
  lstrip s = s.
Proof.
  destruct s as [| c s]; simpl; [reflexivity |]. intros ->. reflexivity.
Qed.

Lemma lstrip_idem (s : str) : lstrip (lstrip s) = lstrip s.
Proof. apply lstrip_fixed. apply lstrip_head. Qed.

Lemma lstrip_snoc (s : str) (c : char) :
  isspace c = false -> lstrip (s ++ [c]) = lstrip s ++ [c].
Proof.
  intros Hc. induction s as [| d s IH]; simpl.
  - rewrite Hc. reflexivity.
  - destruct (isspace d); [assumption | reflexivity].
Qed.

Lemma rstrip_cons (c : char) (s : str) :
  isspace c = false -> rstrip (c :: s) = c :: rstrip s.
Proof.
  intros Hc. unfold rstrip. simpl.
  rewrite lstrip_snoc by assumption. rewrite rev_app_distr. reflexivity.
Qed.

Lemma rstrip_idem (s : str) : rstrip (rstrip s) = rstrip s.
Proof.
  unfold rstrip. rewrite rev_involutive, lstrip_idem. reflexivity.
Qed.

Lemma rstrip_split (s : str) :
  exists q, s = rstrip s ++ q /\ forallb isspace q = true.
Proof.
  unfold rstrip. destruct (lstrip_split (rev s)) as [p [E Hp]].
  exists (rev p). split.
  - rewrite <- rev_app_distr, <- E, rev_involutive. reflexivity.
  - rewrite forallb_forall in *. intros c Hc. apply Hp.
    apply in_rev. assumption.
Qed.

(** [strip] only removes whitespace, from the two ends. *)
Lemma strip_split (s : str) :
  exists p q, s = p ++ strip s ++ q
              /\ forallb isspace p = true /\ forallb isspace q = true.
Proof.
  unfold strip. destruct (lstrip_split s) as [p [E Hp]].
  destruct (rstrip_split (lstrip s)) as [q [E' Hq]].
  exists p, q. split; [| split; assumption].
  rewrite <- E'. assumption.
Qed.

(** A stripped string is stripped: stripping twice changes nothing. *)
Lemma strip_idem (s : str) : trimmed (strip s).
Proof.
  unfold trimmed, strip.
  assert (H : lstrip (rstrip (lstrip s)) = rstrip (lstrip s)).
  { pose proof (lstrip_head s) as Hh.
    destruct (lstrip s) as [| c t]; [reflexivity |].
    rewrite rstrip_cons by assumption. simpl. rewrite Hh. reflexivity. }
  rewrite H. apply rstrip_idem.
Qed.

Lemma strip_len (s : str) : 0 <= len (strip s) <= len s.
Proof.
  destruct (strip_split s) as [p [q [E _]]]. unfold len.
  apply (f_equal (@List.length char)) in E. rewrite !length_app in E. lia.
Qed.

(** What is left after stripping neither starts nor ends with
    whitespace. *)
Lemma strip_ends (s : str) :
  match strip s with c :: _ => isspace c = false | [] => True end
  /\ match rev (strip s) with c :: _ => isspace c = false | [] => True end.
Proof.
  split.
  - pose proof (strip_idem s) as H. unfold trimmed, strip at 1 in H.
    pose proof (lstrip_head (strip s)) as Hh.
    assert (E : lstrip (strip s) = strip s).
    { pose proof (lstrip_head s) as Hs. unfold strip.
      destruct (lstrip s) as [| c t]; [reflexivity |].
      rewrite rstrip_cons by assumption. simpl. rewrite Hs. reflexivity. }
    rewrite E in Hh. assumption.
  - unfold strip, rstrip. rewrite rev_involutive. apply lstrip_head.
Qed.

(** ** The email validator *)

(** X1.  [_이메일_형식_검증] returns exactly on the addresses of the
    pattern and on an address followed by one line feed; on every other
    string it raises the malformed-email ValueError carrying the string.
    It never calls the repository nor changes its state. *)
Theorem email_validator_language
    (S : Type) (이메일 : str) (s : S) :
  (UserService._이메일_형식_검증 이메일 s = (Returned tt, s, [])
   <-> address 이메일
       \/ exists e, 이메일 = e ++ [10%N] /\ address e)
  /\ (UserService._이메일_형식_검증 이메일 s = (Returned tt, s, [])
      \/ UserService._이메일_형식_검증 이메일 s
         = (Raised (InvalidEmail 이메일), s, [])).
Proof.
  assert (Hspec : re_match pattern 이메일 = true
                  <-> address 이메일
                      \/ exists e, 이메일 = e ++ [10%N] /\ address e).
  { rewrite re_match_spec, matches_pattern. split.
    - intros [H | [e [E H]]]; [left; assumption |].
      right. exists e. split; [assumption |]. apply matches_pattern, H.
    - intros [H | [e [E H]]]; [left; assumption |].
      right. exists e. split; [assumption |]. apply matches_pattern, H. }
  unfold UserService._이메일_형식_검증.
  destruct (re_match pattern 이메일) eqn:E; simpl.
  - split; [| left; reflexivity].
    split; [intros _; apply Hspec; reflexivity | reflexivity].
  - split; [| right; reflexivity].
    split; [discriminate |].
    intros H. apply Hspec in H. discriminate.
Qed.

(** X2.  An address that the pattern accepts is also accepted with a
    line feed appended, and creation then hands the repository an entity
    whose email still ends with that line feed. *)
Theorem create_keeps_trailing_line_feed
    (S : Type) (repository : IUserRepository S)
    (이름 e : str) (s s1 : S) :
  address e ->
  3 <= len (strip 이름) <= 50 ->
  이름으로_조회 repository 이름 s = Some (None, s1) ->
  re_match pattern (e ++ [10%N]) = true
  /\ calls_of (UserService.사용자_생성 repository
                 (UserCreateDTO.mk 이름 (e ++ [10%N])) s)
     = [Call_이름으로_조회 이름;
        Call_생성 (User.mk None (strip 이름) (lower e ++ [10%N])
                           (Some true) None)].
Proof.
  intros Ha Hn Hl.
  assert (Hm : re_match pattern (e ++ [10%N]) = true).
  { apply re_match_spec. right. exists e.
    split; [reflexivity | apply matches_pattern; assumption]. }
  split; [assumption |].
  unfold UserService.사용자_생성, bind. cbn [UserCreateDTO.이름 UserCreateDTO.이메일].
  rewrite (이름_길이_검증_ok _ s Hn).
  rewrite (이메일_형식_검증_ok _ s Hm).
  rewrite (이름_중복_검증_free repository _ s Hl).
  unfold await, lower. rewrite map_app. cbn [map lower_char].
  destruct (생성 repository _ s1) as [[created s2] |]; reflexivity.
Qed.

Lemma create_keeps_trailing_line_feed_witness :
  re_match pattern (py "hong@test.com" ++ [10%N]) = true
  /\ calls_of (UserService.사용자_생성 repo
                 (UserCreateDTO.mk 홍길동 (py "hong@test.com" ++ [10%N]))
                 UserRepository.empty)
     = [Call_이름으로_조회 홍길동;
        Call_생성 (User.mk None (strip 홍길동)
                           (lower (py "hong@test.com") ++ [10%N])
                           (Some true) None)].
Proof.
  apply (@create_keeps_trailing_line_feed _ repo 홍길동 (py "hong@test.com")
           UserRepository.empty UserRepository.empty).
  - exists (py "hong"), (py "test"), (py "com").
    repeat split; try discriminate; try reflexivity. simpl. lia.
  - vm_compute. split; discriminate.
  - reflexivity.
Defined.

(** ** What creation hands to the repository *)

(** X3.  Whatever 사용자_생성 passes to the repository's create is in
    normal form: no identifier and no creation time yet, a name that
    stripping leaves unchanged and that has 3 to 50 code points, an
    email that matches the pattern, is made of code points below 128
    and is unchanged by lower-casing, and the active flag set. *)
Theorem create_entity_normal_form
    (S : Type) (repository : IUserRepository S)
    (dto : UserCreateDTO.t) (s : S) (user : User.t) :
  In (Call_생성 user) (calls_of (UserService.사용자_생성 repository dto s)) ->
  User.id user = None
  /\ User.생성일시 user = None
  /\ User.활성화 user = Some true
  /\ trimmed (User.이름 user)
  /\ 3 <= len (User.이름 user) <= 50
  /\ re_match pattern (User.이메일 user) = true
  /\ lower (User.이메일 user) = User.이메일 user
  /\ Forall (fun c => (c < 128)%N) (User.이메일 user).
Proof.
  unfold UserService.사용자_생성, bind.
  destruct (이름_길이_검증_pure (S := S) (UserCreateDTO.이름 dto) s)
    as [o [-> Ho]].
  destruct o as [[] | e | ]; try (simpl; contradiction).
  unfold UserService._이메일_형식_검증.
  destruct (re_match pattern (UserCreateDTO.이메일 dto)) eqn:Em; simpl;
    [| contradiction].
  unfold UserService._이름_중복_검증, bind, await.
  destruct (이름으로_조회 repository (UserCreateDTO.이름 dto) s)
    as [[[existing |] s1] |]; simpl;
    try (intros [H | []]; discriminate).
  assert (Hn : 3 <= len (strip (UserCreateDTO.이름 dto)) <= 50)
    by (apply Ho; reflexivity).
  assert (Hgoal : forall u,
             Call_생성 (User.mk None (strip (UserCreateDTO.이름 dto))
                                (lower (UserCreateDTO.이메일 dto))
                                (Some true) None) = Call_생성 u ->
             User.id u = None
             /\ User.생성일시 u = None
             /\ User.활성화 u = Some true
             /\ trimmed (User.이름 u)
             /\ 3 <= len (User.이름 u) <= 50
             /\ re_match pattern (User.이메일 u) = true
             /\ lower (User.이메일 u) = User.이메일 u
             /\ Forall (fun c => (c < 128)%N) (User.이메일 u)).
  { intros u [= <-]. cbn [User.id User.생성일시 User.활성화 User.이름 User.이메일].
    repeat split; try reflexivity; try lia.
    - apply strip_idem.
    - apply re_match_lower. assumption.
    - apply lower_idem.
    - apply re_match_pattern_ascii. apply re_match_lower. assumption. }
  destruct (생성 repository _ s1) as [[created s2] |]; simpl;
    (intros [H | [H | []]]; [discriminate | apply Hgoal; assumption]).
Qed.

Lemma create_entity_normal_form_witness :
  let user := User.mk None 홍길동 (py "hong@test.com") (Some true) None in
  trimmed (User.이름 user)
  /\ lower (User.이메일 user) = User.이메일 user.
Proof.
  intros user.
  assert (H : In (Call_생성 user)
                 (calls_of (UserService.사용자_생성 repo
                              (UserCreateDTO.mk (py "  " ++ 홍길동 ++ py "  ")
                                                (py "HONG@TEST.COM"))
                              UserRepository.empty))).
  { vm_compute. right. left. reflexivity. }
  destruct (create_entity_normal_form repo _ UserRepository.empty _ H)
    as [_ [_ [_ [Ht [_ [_ [Hl _]]]]]]].
  split; assumption.
Defined.

(** X4.  The repository's create is only ever reached after a lookup of
    the request's name, as given, that found nothing: the calls are then
    exactly that lookup followed by the one create, and both validators
    have passed. *)
Theorem create_only_after_free_lookup
    (S : Type) (repository : IUserRepository S)
    (dto : UserCreateDTO.t) (s : S) (user : User.t) :
  In (Call_생성 user) (calls_of (UserService.사용자_생성 repository dto s)) ->
  (exists s1,
     이름으로_조회 repository (UserCreateDTO.이름 dto) s = Some (None, s1))
  /\ calls_of (UserService.사용자_생성 repository dto s)
     = [Call_이름으로_조회 (UserCreateDTO.이름 dto); Call_생성 user]
  /\ 3 <= len (strip (UserCreateDTO.이름 dto)) <= 50
  /\ re_match pattern (UserCreateDTO.이메일 dto) = true.
Proof.
  unfold UserService.사용자_생성, bind.
  destruct (이름_길이_검증_pure (S := S) (UserCreateDTO.이름 dto) s)
    as [o [-> Ho]].
  destruct o as [[] | e | ]; try (simpl; contradiction).
  unfold UserService._이메일_형식_검증.
  destruct (re_match pattern (UserCreateDTO.이메일 dto)) eqn:Em; simpl;
    [| contradiction].
  unfold UserService._이름_중복_검증, bind, await.
  destruct (이름으로_조회 repository (UserCreateDTO.이름 dto) s)
    as [[[existing |] s1] |]; simpl;
    try (intros [H | []]; discriminate).
  assert (Hn : 3 <= len (strip (UserCreateDTO.이름 dto)) <= 50)
    by (apply Ho; reflexivity).
  destruct (생성 repository _ s1) as [[created s2] |]; simpl;
    (intros [H | [H | []]]; [discriminate |]);
    injection H as <-;
    (split; [exists s1; reflexivity |]);
    (split; [reflexivity |]); (split; [assumption | reflexivity]).
Qed.

Lemma create_only_after_free_lookup_witness :
  exists s1,
    이름으로_조회 repo 홍길순 session_1 = Some (None, s1).
Proof.
  assert (H : In (Call_생성 (User.mk None 홍길순 (py "soon@test.com")
                               (Some true) None))
                 (calls_of (UserService.사용자_생성 repo
                              (UserCreateDTO.mk 홍길순 (py "soon@test.com"))
                              session_1))).
  { vm_compute. right. left. reflexivity. }
  exact (proj1 (create_only_after_free_lookup repo _ session_1 _ H)).
Defined.

(** X5.  For any repository: when both validators pass and the lookup
    of the request's name, as given, answers a user, 사용자_생성 raises
    the duplicate-name ValueError carrying that name; the lookup is the
    only call made, so nothing is created. *)
Theorem create_duplicate_raises
    (S : Type) (repository : IUserRepository S)
    (dto : UserCreateDTO.t) (s s1 : S) (existing : User.t) :
  3 <= len (strip (UserCreateDTO.이름 dto)) <= 50 ->
  re_match pattern (UserCreateDTO.이메일 dto) = true ->
  이름으로_조회 repository (UserCreateDTO.이름 dto) s
  = Some (Some existing, s1) ->
  UserService.사용자_생성 repository dto s
  = (Raised (DuplicateName (UserCreateDTO.이름 dto)), s1,
     [Call_이름으로_조회 (UserCreateDTO.이름 dto)]).
Proof.
  intros Hn He Hl. unfold UserService.사용자_생성, bind.
  rewrite (이름_길이_검증_ok _ s Hn).
  rewrite (이메일_형식_검증_ok _ s He).
  rewrite (이름_중복_검증_taken repository _ s Hl). reflexivity.
Qed.

Lemma create_duplicate_raises_witness :
  UserService.사용자_생성 repo
    (UserCreateDTO.mk 홍길동 (py "hong2@test.com")) session_1
  = (Raised (DuplicateName 홍길동), session_1, [Call_이름으로_조회 홍길동]).
Proof.
  eapply (@create_duplicate_raises _ repo
            (UserCreateDTO.mk 홍길동 (py "hong2@test.com")) session_1).
  - vm_compute. split; discriminate.
  - vm_compute. reflexivity.
  - reflexivity.
Defined.

(** ** More on updates *)

(** X6.  An update of an id the repository does not know raises the
    not-found ValueError after the one lookup by id, whatever the
    request holds: no field is validated, no name is looked up, nothing
    is persisted. *)
Theorem update_not_found
    (S : Type) (repository : IUserRepository S) (user_id : Z)
    (dto : UserUpdateDTO.t) (s s1 : S) :
  조회 repository user_id s = Some (None, s1) ->
  UserService.사용자_수정 repository user_id dto s
  = (Raised (UserNotFound user_id), s1, [Call_조회 user_id]).
Proof.
  intros H. unfold UserService.사용자_수정, bind.
  rewrite (사용자_조회_absent repository _ _ H). reflexivity.
Qed.

Lemma update_not_found_witness :
  UserService.사용자_수정 repo 999
    (UserUpdateDTO.mk (Some [54861%N]) (Some (py "invalid-email"))) session_1
  = (Raised (UserNotFound 999), session_1, [Call_조회 999]).
Proof.
  apply (@update_not_found _ repo 999 _ session_1 session_1). reflexivity.
Defined.


Section UpdateLookup.

Context {S : Type}.
Variable repository : IUserRepository S.

(** The name lookup of an update, when one is made, is the second call
    and is made with the supplied name as given. *)
Lemma 사용자_수정_lookup (user_id : Z) (dto : UserUpdateDTO.t) (s s1 : S)
    (user : User.t) (이름 : str) :
  조회 repository user_id s = Some (Some user, s1) ->
  (In (Call_이름으로_조회 이름)
      (calls_of (UserService.사용자_수정 repository user_id dto s))
   <-> supplied (UserUpdateDTO.이름 dto) = Some 이름
       /\ 3 <= len (strip 이름) <= 50
       /\ 이름 <> User.이름 user).
Proof.
  intros H.
  unfold UserService.사용자_수정, bind.
  rewrite (사용자_조회_present repository _ _ H).
  clear H. destruct user as [i nm em ac cr].
  destruct dto as [name email].
  destruct name as [[| c n] |]; destruct email as [[| c' e] |];
    cbn [UserUpdateDTO.이름 UserUpdateDTO.이메일 supplied User.이름];
    unfold UserService._이름_중복_검증, UserService._이메일_형식_검증,
      bind, await, ret, raise;
    split_run.
  all: cbn; split.
  all: try (intros [? [? ?]]; discriminate).
  all: intros Hin;
    repeat match goal with
           | H : _ \/ _ |- _ => destruct H
           | H : False |- _ => contradiction
           | H : _ /\ _ |- _ => destruct H
           end;
    try discriminate.
  all: try match goal with
           | H : Call_이름으로_조회 _ = Call_이름으로_조회 _ |- _ =>
               injection H as <-
           | H : Some _ = Some _ |- _ => injection H as <-
           end.
  all: try match goal with
           | H : str_eqb _ _ = true |- _ => apply str_eqb_eq in H
           end.
  all: try congruence.
  all: try (exfalso;
            match goal with
            | Ho : _ <-> ?P |- _ =>
                assert (HP : P) by lia; apply Ho in HP; discriminate
            end).
  all: try (split; [reflexivity | split; [apply Ho; reflexivity |]];
            intros Heq;
            match goal with
            | H : str_eqb _ _ = false |- _ =>
                rewrite (proj2 (str_eqb_eq _ _) Heq) in H; discriminate
            end).
  all: try (left; reflexivity); try (right; left; reflexivity).
Qed.

End UpdateLookup.

(** X9.  In an update of a record the repository finds, get-by-name is
    consulted exactly when a name is supplied non-empty, passes the
    length check and differs, as given, from the record's current name;
    it is consulted with the name as given, and when it answers a user
    the update raises the duplicate-name ValueError before any email
    check and before the persist. *)
Theorem update_name_lookup_rule
    (S : Type) (repository : IUserRepository S) (user_id : Z)
    (dto : UserUpdateDTO.t) (s s1 : S) (user : User.t) :
  조회 repository user_id s = Some (Some user, s1) ->
  (forall 이름,
     In (Call_이름으로_조회 이름)
        (calls_of (UserService.사용자_수정 repository user_id dto s))
     <-> supplied (UserUpdateDTO.이름 dto) = Some 이름
         /\ 3 <= len (strip 이름) <= 50
         /\ 이름 <> User.이름 user)
  /\ (forall 이름 existing s2,
        supplied (UserUpdateDTO.이름 dto) = Some 이름 ->
        3 <= len (strip 이름) <= 50 ->
        이름 <> User.이름 user ->
        이름으로_조회 repository 이름 s1 = Some (Some existing, s2) ->
        UserService.사용자_수정 repository user_id dto s
        = (Raised (DuplicateName 이름), s2,
           [Call_조회 user_id; Call_이름으로_조회 이름])).
Proof.
  intros H. split.
  - intros 이름. eapply 사용자_수정_lookup. eassumption.
  - intros 이름 existing s2 Hs Hl Hne Hq.
    unfold UserService.사용자_수정, bind.
    rewrite (사용자_조회_present repository _ _ H).
    destruct dto as [name email].
    destruct name as [[| c n] |];
      cbn [UserUpdateDTO.이름 supplied] in Hs; try discriminate.
    injection Hs as <-. cbn [UserUpdateDTO.이름].
    rewrite (@이름_길이_검증_ok S _ s1 Hl).
    destruct (str_eqb (c :: n) (User.이름 user)) eqn:Eq.
    + apply str_eqb_eq in Eq. congruence.
    + cbn [negb].
      rewrite (이름_중복_검증_taken repository _ s1 Hq). reflexivity.
Qed.

(** The two renaming tests of the suite on the table holding 홍길동 and
    김철수: 김철수 is taken, 홍길순 is free. *)
Lemma update_name_lookup_rule_witness :
  UserService.사용자_수정 repo 1
    (UserUpdateDTO.mk (Some 김철수) None) session_2
  = (Raised (DuplicateName 김철수), session_2,
     [Call_조회 1; Call_이름으로_조회 김철수])
  /\ In (Call_이름으로_조회 홍길순)
        (calls_of (UserService.사용자_수정 repo 1
                     (UserUpdateDTO.mk (Some 홍길순) None) session_2)).
Proof.
  pose (user := User.mk (Some 1) 홍길동 (py "hong@test.com")
                        (Some true) (Some 0)).
  assert (H : 조회 repo 1 session_2 = Some (Some user, session_2))
    by (vm_compute; reflexivity).
  split.
  - eapply (proj2 (@update_name_lookup_rule _ repo 1
                     (UserUpdateDTO.mk (Some 김철수) None)
                     session_2 session_2 user H)).
    + reflexivity.
    + vm_compute. split; discriminate.
    + discriminate.
    + vm_compute. reflexivity.
  - apply (proj1 (@update_name_lookup_rule _ repo 1
                    (UserUpdateDTO.mk (Some 홍길순) None)
                    session_2 session_2 user H)).
    split; [reflexivity | split; [| discriminate]].
    vm_compute. split; discriminate.
Defined.

(** X10.  Whatever 사용자_수정 passes to the repository's persist keeps
    the identifier, the active flag and the creation time of the fetched
    record; a name that was supplied is stored stripped, with 3 to 50
    code points, and an email that was supplied is stored matching the
    pattern and unchanged by lower-casing. *)
Theorem update_entity_normal_form
    (S : Type) (repository : IUserRepository S) (user_id : Z)
    (dto : UserUpdateDTO.t) (s s1 : S) (user u : User.t) :
  조회 repository user_id s = Some (Some user, s1) ->
  In (Call_수정 u)
     (calls_of (UserService.사용자_수정 repository user_id dto s)) ->
  User.id u = User.id user
  /\ User.활성화 u = User.활성화 user
  /\ User.생성일시 u = User.생성일시 user
  /\ (supplied (UserUpdateDTO.이름 dto) <> None ->
      trimmed (User.이름 u) /\ 3 <= len (User.이름 u) <= 50)
  /\ (supplied (UserUpdateDTO.이름 dto) = None ->
      User.이름 u = User.이름 user)
  /\ (supplied (UserUpdateDTO.이메일 dto) <> None ->
      re_match pattern (User.이메일 u) = true
      /\ lower (User.이메일 u) = User.이메일 u)
  /\ (supplied (UserUpdateDTO.이메일 dto) = None ->
      User.이메일 u = User.이메일 user).
Proof.
  intros H Hin.
  destruct (@사용자_수정_safe _ repository user_id dto s s1 user u H Hin)
    as [-> [_ [Hn He]]].
  unfold updated_entity.
  cbn [User.id User.활성화 User.생성일시 User.이름 User.이메일].
  split; [reflexivity | split; [reflexivity | split; [reflexivity |]]].
  destruct (supplied (UserUpdateDTO.이름 dto)) as [n |];
    destruct (supplied (UserUpdateDTO.이메일 dto)) as [e |].
  all: (split; [intros Hs | split; [intros Hs | split; intros Hs]]);
    try congruence; try reflexivity.
  all: try (split; [apply strip_idem | apply Hn; reflexivity]).
  all: split; [apply re_match_lower, He; reflexivity | apply lower_idem].
Qed.

Lemma update_entity_normal_form_witness :
  let dto := UserUpdateDTO.mk (Some (py " " ++ 홍길순 ++ py " "))
                              (Some (py "HongSoon@Test.com")) in
  let u := User.mk (Some 1) 홍길순 (py "hongsoon@test.com")
                   (Some true) (Some 0) in
  User.id u = Some 1 /\ User.활성화 u = Some true.
Proof.
  intros dto u.
  pose (user := User.mk (Some 1) 홍길동 (py "hong@test.com")
                        (Some true) (Some 0)).
  assert (H : 조회 repo 1 session_1 = Some (Some user, session_1))
    by (vm_compute; reflexivity).
  assert (Hin : In (Call_수정 u)
                   (calls_of (UserService.사용자_수정 repo 1 dto session_1))).
  { vm_compute. right. right. left. reflexivity. }
  destruct (@update_entity_normal_form _ repo 1 dto session_1 session_1
              user u H Hin) as [Hi [Ha _]].
  split; assumption.
Defined.

(** * The SQLAlchemy repository *)

(** ** Rows and identifiers *)

Lemma has_id_true (i : Z) (u : User.t) :
  User.has_id i u = true <-> User.id u = Some i.
Proof.
  unfold User.has_id. destruct (User.id u) as [j |].
  - rewrite Z.eqb_eq. split; congruence.
  - split; discriminate.
Qed.

Lemma has_id_false (i : Z) (u : User.t) :
  User.has_id i u = false <-> User.id u <> Some i.
Proof.
  rewrite <- has_id_true. destruct (User.has_id i u); split; congruence.
Qed.

Lemma filter_nil_iff {A : Type} (f : A -> bool) (l : list A) :
  filter f l = [] <-> forall x, In x l -> f x = false.
Proof.
  induction l as [| a l IH]; simpl.
  - split; [intros _ x [] | reflexivity].
  - destruct (f a) eqn:E.
    + split; [discriminate |]. intros H.
      rewrite (H a) in E by (left; reflexivity). discriminate.
    + rewrite IH. split.
      * intros H x [<- | Hx]; auto.
      * intros H x Hx. apply H. right. assumption.
Qed.

(** Under the primary key at most one row answers to an identifier. *)
Lemma filter_has_id (l : list User.t) (i : Z) :
  NoDup (map User.id l) ->
  filter (User.has_id i) l = []
  \/ exists u, filter (User.has_id i) l = [u].
Proof.
  induction l as [| a l IH]; simpl; intros Hnd; [left; reflexivity |].
  inversion Hnd as [| ? ? Hnot Hnd']; subst.
  destruct (User.has_id i a) eqn:E.
  - right. exists a. f_equal. apply filter_nil_iff. intros x Hx.
    apply has_id_false. intros Hid. apply has_id_true in E.
    apply Hnot. rewrite E, <- Hid. apply in_map. assumption.
  - apply IH. assumption.
Qed.

Lemma 조회_spec (i : Z) (s : UserRepository.Session) :
  well_formed s ->
  exists r,
    UserRepository.조회 i s = Some (r, s)
    /\ forall u, r = Some u
                 <-> In u (UserRepository.rows s) /\ User.id u = Some i.
Proof.
  intros [_ Hnd]. unfold UserRepository.조회.
  destruct (filter_has_id (UserRepository.rows s) i Hnd) as [E | [u E]];
    rewrite E; simpl.
  - exists None. split; [reflexivity |]. intros u. split; [discriminate |].
    intros [Hin Hid]. apply has_id_true in Hid.
    rewrite filter_nil_iff in E. rewrite (E u Hin) in Hid. discriminate.
  - exists (Some u). split; [reflexivity |]. intros v. split.
    + intros [= <-].
      assert (Hu : In u (filter (User.has_id i) (UserRepository.rows s)))
        by (rewrite E; left; reflexivity).
      apply filter_In in Hu as [Hin Hid]. apply has_id_true in Hid. auto.
    + intros [Hin Hid]. apply has_id_true in Hid.
      assert (Hv : In v (filter (User.has_id i) (UserRepository.rows s)))
        by (apply filter_In; auto).
      rewrite E in Hv. destruct Hv as [-> | []]. reflexivity.
Qed.

Lemma 조회_absent (i : Z) (s : UserRepository.Session) :
  (forall u, In u (UserRepository.rows s) -> User.id u <> Some i) ->
  UserRepository.조회 i s = Some (None, s).
Proof.
  intros H. unfold UserRepository.조회.
  assert (E : filter (User.has_id i) (UserRepository.rows s) = []).
  { apply filter_nil_iff. intros u Hu. apply has_id_false. auto. }
  rewrite E. reflexivity.
Qed.

Lemma 조회_present (i : Z) (s : UserRepository.Session) (u : User.t) :
  well_formed s -> In u (UserRepository.rows s) -> User.id u = Some i ->
  UserRepository.조회 i s = Some (Some u, s).
Proof.
  intros Hwf Hin Hid. destruct (조회_spec i Hwf) as [r [E Hr]].
  rewrite E. f_equal. f_equal. apply Hr. auto.
Qed.

Lemma existsb_has_id (i : Z) (l : list User.t) :
  existsb (User.has_id i) l = true
  <-> exists u, In u l /\ User.id u = Some i.
Proof.
  rewrite existsb_exists. split; intros [u [Hin H]]; exists u;
    (split; [assumption | apply has_id_true; assumption]).
Qed.

Lemma existsb_has_id_fresh (s : UserRepository.Session) :
  well_formed s ->
  existsb (User.has_id (UserRepository.next_id s)) (UserRepository.rows s)
  = false.
Proof.
  intros [Hids _].
  destruct (existsb _ _) eqn:E; [| reflexivity].
  apply existsb_has_id in E as [u [Hin Hid]].
  destruct (Hids u Hin) as [i [Hi Hlt]]. rewrite Hid in Hi.
  injection Hi as <-. lia.
Qed.

(** The row that [생성] stores for an entity without an identifier. *)
Lemma 생성_fresh (user : User.t) (s : UserRepository.Session) :
  well_formed s -> User.id user = None ->
  let stored :=
    User.mk (Some (UserRepository.next_id s)) (User.이름 user)
            (User.이메일 user) (User.활성화 user)
            (Some (match User.생성일시 user with
                   | Some t => t
                   | None => UserRepository.clock s
                   end)) in
  UserRepository.생성 user s
  = Some (stored,
          UserRepository.mkSession
            (UserRepository.rows s ++ [stored])
            (UserRepository.next_id s + 1)
            (UserRepository.clock s + 1)).
Proof.
  intros Hwf Hid. cbv zeta. unfold UserRepository.생성. rewrite Hid.
  rewrite (existsb_has_id_fresh Hwf).
  rewrite Z.max_r by lia. reflexivity.
Qed.

Lemma well_formed_snoc (s : UserRepository.Session) (stored : User.t)
    (n c : Z) :
  well_formed s ->
  User.id stored = Some (UserRepository.next_id s) ->
  UserRepository.next_id s < n ->
  well_formed
    (UserRepository.mkSession (UserRepository.rows s ++ [stored]) n c).
Proof.
  intros [Hids Hnd] Hid Hn. split; simpl.
  - intros u Hu. apply in_app_or in Hu as [Hu | [<- | []]].
    + destruct (Hids u Hu) as [i [Hi Hlt]]. exists i. split; [assumption | lia].
    + exists (UserRepository.next_id s). split; [assumption | lia].
  - rewrite map_app. simpl.
    apply NoDup_app; [assumption | constructor; [intros [] | constructor] |].
    intros x Hx [<- | []].
    apply in_map_iff in Hx as [u [Hu Hin]].
    destruct (Hids u Hin) as [i [Hi Hlt]].
    rewrite Hid in Hu. rewrite Hu in Hi. injection Hi as <-. lia.
Qed.


(** ** Create, look up, update, delete *)





Lemma NoDup_map_filter {A B : Type} (g : A -> B) (f : A -> bool)
    (l : list A) :
  NoDup (map g l) -> NoDup (map g (filter f l)).
Proof.
  induction l as [| a l IH]; simpl; intros H; [constructor |].
  inversion H as [| ? ? Hn Hl]; subst.
  destruct (f a); simpl; [constructor |]; auto.
  intros Hin. apply Hn. apply in_map_iff in Hin as [x [Hx Hin]].
  apply filter_In in Hin as [Hin _]. rewrite <- Hx. apply in_map. assumption.
Qed.

Lemma well_formed_filter (s : UserRepository.Session)
    (f : User.t -> bool) :
  well_formed s ->
  well_formed
    (UserRepository.mkSession (filter f (UserRepository.rows s))
                              (UserRepository.next_id s)
                              (UserRepository.clock s)).
Proof.
  intros [Hids Hnd]. split; simpl.
  - intros u Hu. apply filter_In in Hu as [Hu _]. auto.
  - apply NoDup_map_filter. assumption.
Qed.

Lemma map_ids_preserved (g : User.t -> User.t) (l : list User.t) :
  (forall u, In u l -> User.id (g u) = User.id u) ->
  map User.id (map g l) = map User.id l.
Proof.
  intros H. rewrite map_map. apply map_ext_in. assumption.
Qed.

Lemma well_formed_map (s : UserRepository.Session)
    (g : User.t -> User.t) :
  well_formed s ->
  (forall u, In u (UserRepository.rows s) -> User.id (g u) = User.id u) ->
  well_formed
    (UserRepository.mkSession (map g (UserRepository.rows s))
                              (UserRepository.next_id s)
                              (UserRepository.clock s)).
Proof.
  intros [Hids Hnd] Hg. split; simpl.
  - intros u Hu. apply in_map_iff in Hu as [v [<- Hv]].
    rewrite Hg by assumption. auto.
  - rewrite map_ids_preserved; assumption.
Qed.








Lemma well_formed_session_2 : well_formed session_2.
Proof.
  split.
  - intros u Hu. vm_compute in Hu.
    destruct Hu as [<- | [<- | []]];
      [exists 1 | exists 2]; split; reflexivity.
  - vm_compute. repeat constructor; simpl; intuition discriminate.
Qed.


(** ** Bulk creation *)




(** ** Batch lookup and counting *)







Lemma filter_all {A : Type} (f : A -> bool) (l : list A) :
  (forall x, In x l -> f x = true) -> filter f l = l.
Proof.
  induction l as [| a l IH]; simpl; intros H; [reflexivity |].
  rewrite (H a) by (left; reflexivity). f_equal. apply IH.
  intros x Hx. apply H. right. assumption.
Qed.

Lemma rows_with_id (s : UserRepository.Session) :
  well_formed s ->
  filter (fun u => match User.id u with Some _ => true | None => false end)
         (UserRepository.rows s)
  = UserRepository.rows s.
Proof.
  intros [Hids _]. apply filter_all. intros u Hu.
  destruct (Hids u Hu) as [i [-> _]]. reflexivity.
Qed.




(** Replacing the row of one identifier touches one place of the
    table. *)
Lemma map_replace_split (l : list User.t) (u : User.t) (i : Z)
    (h : User.t -> User.t) :
  NoDup (map User.id l) -> In u l -> User.id u = Some i ->
  exists l1 l2,
    l = l1 ++ u :: l2
    /\ map (fun v => if User.has_id i v then h v else v) l
       = l1 ++ h u :: l2
    /\ (forall v, In v (l1 ++ l2) -> User.id v <> Some i).
Proof.
  intros Hnd Hin Hid.
  destruct (in_split u l Hin) as [l1 [l2 ->]].
  exists l1, l2.
  assert (Hother : forall v, In v (l1 ++ l2) -> User.id v <> Some i).
  { intros v Hv Hvid. rewrite map_app in Hnd. simpl in Hnd.
    apply NoDup_remove_2 in Hnd. apply Hnd.
    rewrite <- map_app, Hid, <- Hvid. apply in_map. assumption. }
  split; [reflexivity |]. split; [| assumption].
  rewrite map_app. simpl.
  rewrite (proj2 (has_id_true i u) Hid).
  assert (Hfix : forall l', (forall v, In v l' -> In v (l1 ++ l2)) ->
                   map (fun v => if User.has_id i v then h v else v) l' = l').
  { intros l' Hsub. rewrite <- (map_id l') at 2. apply map_ext_in.
    intros v Hv.
    rewrite (proj2 (has_id_false i v) (Hother v (Hsub v Hv))). reflexivity. }
  rewrite !Hfix; [reflexivity | |];
    intros v Hv; apply in_or_app; auto.
Qed.

(** X21.  Soft deletion moves one row from the active to the inactive
    count: on a well-formed table, after the soft delete of an active
    row the unfiltered count is unchanged, the count of active rows is
    one less and the count of inactive rows one more. *)
Theorem repository_soft_delete_counts
    (s s1 : UserRepository.Session) (user_id : Z) (u : User.t)
    (total active inactive : Z) :
  well_formed s ->
  In u (UserRepository.rows s) -> User.id u = Some user_id ->
  User.활성화 u = Some true ->
  UserRepository.개수_조회 None s = Some (total, s) ->
  UserRepository.개수_조회 (Some true) s = Some (active, s) ->
  UserRepository.개수_조회 (Some false) s = Some (inactive, s) ->
  UserRepository.소프트_삭제 user_id s = Some (true, s1) ->
  UserRepository.개수_조회 None s1 = Some (total, s1)
  /\ UserRepository.개수_조회 (Some true) s1 = Some (active - 1, s1)
  /\ UserRepository.개수_조회 (Some false) s1 = Some (inactive + 1, s1).
Proof.
  intros Hwf Hin Hid Hact Ht Ha Hi Hd.
  unfold UserRepository.소프트_삭제 in Hd.
  rewrite (@조회_present user_id s u Hwf Hin Hid) in Hd.
  injection Hd as <-.
  assert (Hwf1 : well_formed
                   (UserRepository.mkSession
                      (map (fun v => if User.has_id user_id v
                                     then User.set_활성화 v (Some false)
                                     else v) (UserRepository.rows s))
                      (UserRepository.next_id s)
                      (UserRepository.clock s))).
  { apply well_formed_map; [assumption |].
    intros v _. destruct (User.has_id user_id v); reflexivity. }
  unfold UserRepository.개수_조회 in *.
  rewrite (rows_with_id Hwf) in Ht, Ha, Hi.
  rewrite (rows_with_id Hwf1).
  injection Ht as <-. injection Ha as <-. injection Hi as <-.
  simpl UserRepository.rows.
  destruct Hwf as [_ Hnd].
  destruct (@map_replace_split (UserRepository.rows s) u user_id
              (fun v => User.set_활성화 v (Some false))
              Hnd Hin Hid) as [l1 [l2 [El [Em _]]]].
  assert (Ft : UserRepository.flag_is true u = true)
    by (unfold UserRepository.flag_is; rewrite Hact; reflexivity).
  assert (Ff : UserRepository.flag_is false u = false)
    by (unfold UserRepository.flag_is; rewrite Hact; reflexivity).
  rewrite Em, El. rewrite !filter_app, !length_app. simpl.
  rewrite Ft, Ff. simpl.
  repeat split; repeat f_equal; lia.
Qed.

Lemma repository_soft_delete_counts_witness :
  exists s1,
    UserRepository.소프트_삭제 1 session_2 = Some (true, s1)
    /\ UserRepository.개수_조회 (Some true) s1 = Some (1, s1)
    /\ UserRepository.개수_조회 (Some false) s1 = Some (1, s1).
Proof.
  eexists. split; [reflexivity |].
  refine (proj2 (@repository_soft_delete_counts session_2 _ 1
                   (User.mk (Some 1) 홍길동 (py "hong@test.com")
                            (Some true) (Some 0))
                   2 2 0 well_formed_session_2 _ _ _ _ _ _ _)).
  - vm_compute. left. reflexivity.
  - reflexivity.
  - reflexivity.
  - reflexivity.
  - reflexivity.
  - reflexivity.
  - reflexivity.
Defined.

(** ** Paging through the table *)











(** * The service on the SQLAlchemy repository *)


Lemma repository_remove (s : UserRepository.Session) (user_id : Z) :
  well_formed s ->
  forall u, In u (UserRepository.rows s) -> User.id u = Some user_id ->
    exists s1,
      UserRepository.삭제 user_id s = Some (true, s1)
      /\ well_formed s1
      /\ UserRepository.조회 user_id s1 = Some (None, s1).
Proof.
  intros Hwf u Hin Hid. unfold UserRepository.삭제.
  rewrite (@조회_present user_id s u Hwf Hin Hid).
  eexists. split; [reflexivity |].
  split; [apply well_formed_filter; assumption |].
  apply 조회_absent. simpl. intros v Hv.
  apply filter_In in Hv as [_ Hv]. apply negb_true_iff in Hv.
  apply has_id_false. assumption.
Qed.





(** X24.  Delete, then get, on the SQLAlchemy repository: on a
    well-formed table 사용자_삭제 of an identifier a row carries returns
    True after the lookup and the delete, and from then on 사용자_조회
    and 사용자_삭제 of that identifier raise the not-found ValueError;
    and 사용자_삭제 never returns False, since the lookup that comes
    first has failed by then. *)
Theorem service_delete_then_get
    (s : UserRepository.Session) (user_id : Z) :
  well_formed s ->
  (forall u, In u (UserRepository.rows s) -> User.id u = Some user_id ->
     exists s1,
       UserService.사용자_삭제 repo user_id s
       = (Returned true, s1, [Call_조회 user_id; Call_삭제 user_id])
       /\ well_formed s1
       /\ UserService.사용자_조회 repo user_id s1
          = (Raised (UserNotFound user_id), s1, [Call_조회 user_id])
       /\ UserService.사용자_삭제 repo user_id s1
          = (Raised (UserNotFound user_id), s1, [Call_조회 user_id]))
  /\ outcome_of (UserService.사용자_삭제 repo user_id s) <> Returned false.
Proof.
  intros Hwf.
  assert (Hrun : forall r s0,
             UserRepository.조회 user_id s0 = Some (r, s0) ->
             UserService.사용자_조회 repo user_id s0
             = match r with
               | Some u => (Returned u, s0, [Call_조회 user_id])
               | None => (Raised (UserNotFound user_id), s0,
                          [Call_조회 user_id])
               end).
  { intros r s0 E. unfold UserService.사용자_조회, bind, await.
    change (조회 repo user_id s0) with (UserRepository.조회 user_id s0).
    rewrite E. destruct r; reflexivity. }
  split.
  - intros u Hin Hid.
    destruct (@repository_remove s user_id Hwf u Hin Hid)
      as [s1 [Ed [Hwf1 Hq]]].
    exists s1.
    assert (E1 : UserService.사용자_조회 repo user_id s1
                 = (Raised (UserNotFound user_id), s1, [Call_조회 user_id]))
      by (rewrite (Hrun None s1 Hq); reflexivity).
    split; [| split; [assumption | split; [assumption |]]].
    + unfold UserService.사용자_삭제, bind.
      rewrite (Hrun (Some u) s (@조회_present user_id s u Hwf Hin Hid)).
      unfold await.
      change (삭제 repo user_id s) with (UserRepository.삭제 user_id s).
      rewrite Ed. reflexivity.
    + unfold UserService.사용자_삭제, bind. rewrite E1. reflexivity.
  - destruct (조회_spec user_id Hwf) as [r [E Hr]].
    unfold UserService.사용자_삭제, bind. rewrite (Hrun r s E).
    destruct r as [u |]; [| discriminate].
    destruct (proj1 (Hr u) eq_refl) as [Hin Hid].
    destruct (@repository_remove s user_id Hwf u Hin Hid)
      as [s1 [Ed _]].
    unfold await.
    change (삭제 repo user_id s) with (UserRepository.삭제 user_id s).
    rewrite Ed. discriminate.
Qed.

Lemma service_delete_then_get_witness :
  exists s1,
    UserService.사용자_삭제 repo 2 session_2
    = (Returned true, s1, [Call_조회 2; Call_삭제 2])
    /\ UserService.사용자_조회 repo 2 s1
       = (Raised (UserNotFound 2), s1, [Call_조회 2]).
Proof.
  destruct (proj1 (@service_delete_then_get session_2 2 well_formed_session_2)
              (User.mk (Some 2) 김철수 (py "kim@test.com")
                       (Some true) (Some 1)))
    as [s1 [Ed [_ [Eq _]]]].
  - vm_compute. right. left. reflexivity.
  - reflexivity.
  - exists s1. split; assumption.
Defined.

(** ** Unique names *)

Lemma filter_name (l : list User.t) (이름 : str) :
  NoDup (map User.이름 l) ->
  filter (fun u => str_eqb (User.이름 u) 이름) l = []
  \/ exists u, filter (fun u => str_eqb (User.이름 u) 이름) l = [u].
Proof.
  induction l as [| a l IH]; simpl; intros Hnd; [left; reflexivity |].
  inversion Hnd as [| ? ? Hnot Hnd']; subst.
  destruct (str_eqb (User.이름 a) 이름) eqn:E.
  - right. exists a. f_equal. apply filter_nil_iff. intros x Hx.
    destruct (str_eqb (User.이름 x) 이름) eqn:Ex; [| reflexivity].
    apply str_eqb_eq in E, Ex. exfalso. apply Hnot.
    rewrite E, <- Ex. apply in_map. assumption.
  - apply IH. assumption.
Qed.

Lemma 이름으로_조회_spec (이름 : str) (s : UserRepository.Session) :
  names_unique s ->
  exists r,
    UserRepository.이름으로_조회 이름 s = Some (r, s)
    /\ (r = None
        <-> forall u, In u (UserRepository.rows s) -> User.이름 u <> 이름)
    /\ (forall u, r = Some u ->
                  In u (UserRepository.rows s) /\ User.이름 u = 이름).
Proof.
  intros Hnd. unfold UserRepository.이름으로_조회.
  destruct (@filter_name (UserRepository.rows s) 이름 Hnd) as [E | [u E]];
    rewrite E; simpl.
  - exists None. split; [reflexivity |]. split; [| discriminate].
    split; [| reflexivity]. intros _ u Hu Hname.
    rewrite filter_nil_iff in E. specialize (E u Hu).
    rewrite (proj2 (str_eqb_eq _ _) Hname) in E. discriminate.
  - exists (Some u). split; [reflexivity |].
    assert (Hu : In u (filter (fun v => str_eqb (User.이름 v) 이름)
                              (UserRepository.rows s)))
      by (rewrite E; left; reflexivity).
    apply filter_In in Hu as [Hin Hname]. apply str_eqb_eq in Hname.
    split.
    + split; [discriminate |]. intros H. exfalso. exact (H u Hin Hname).
    + intros v [= <-]. auto.
Qed.

(** X25.  Creation keeps names unique when the name arrives stripped.
    On a well-formed table whose names are pairwise distinct, a create
    request whose name is already stripped never makes the repository
    fail and leaves the table well formed with pairwise distinct names,
    whether it ends in a ValueError or in a new row; and a new row is
    appended under a name no earlier row carries. *)
Theorem service_create_keeps_names_unique
    (s : UserRepository.Session) (dto : UserCreateDTO.t) :
  well_formed s -> names_unique s ->
  trimmed (UserCreateDTO.이름 dto) ->
  outcome_of (UserService.사용자_생성 repo dto s) <> Propagated
  /\ well_formed (state_of (UserService.사용자_생성 repo dto s))
  /\ names_unique (state_of (UserService.사용자_생성 repo dto s))
  /\ (forall created,
        outcome_of (UserService.사용자_생성 repo dto s) = Returned created ->
        UserRepository.rows (state_of (UserService.사용자_생성 repo dto s))
        = UserRepository.rows s ++ [created]
        /\ User.이름 created = UserCreateDTO.이름 dto
        /\ forall u, In u (UserRepository.rows s) ->
                     User.이름 u <> User.이름 created).
Proof.
  intros Hwf Hnu Htrim.
  unfold UserService.사용자_생성, bind.
  destruct (Z.lt_ge_cases (len (strip (UserCreateDTO.이름 dto))) 3)
    as [Hshort | Hge].
  { rewrite (@이름_길이_검증_short UserRepository.Session _ s Hshort).
    cbn. split; [discriminate | split; [assumption | split;
      [assumption | intros ? Hr; discriminate Hr]]]. }
  destruct (Z.lt_ge_cases 50 (len (strip (UserCreateDTO.이름 dto))))
    as [Hlong | Hle].
  { rewrite (@이름_길이_검증_long UserRepository.Session _ s)
      by lia.
    cbn. split; [discriminate | split; [assumption | split;
      [assumption | intros ? Hr; discriminate Hr]]]. }
  rewrite (@이름_길이_검증_ok UserRepository.Session _ s)
    by lia.
  unfold UserService._이메일_형식_검증.
  destruct (re_match pattern (UserCreateDTO.이메일 dto)) eqn:Em;
    cbn [negb]; unfold raise, ret;
    try (cbn; split; [discriminate | split; [assumption | split;
           [assumption | intros ? Hr; discriminate Hr]]]).
  unfold UserService._이름_중복_검증, bind, await.
  change (이름으로_조회 repo (UserCreateDTO.이름 dto) s)
    with (UserRepository.이름으로_조회 (UserCreateDTO.이름 dto) s).
  destruct (@이름으로_조회_spec (UserCreateDTO.이름 dto) s Hnu)
    as [r [-> [Hnone _]]].
  destruct r as [existing |];
    try (cbn; split; [discriminate | split; [assumption | split;
           [assumption | intros ? Hr; discriminate Hr]]]).
  assert (Hfree : forall u, In u (UserRepository.rows s) ->
                            User.이름 u <> UserCreateDTO.이름 dto)
    by (apply Hnone; reflexivity).
  unfold raise, ret. cbn [fst snd].
  match goal with
  | |- context [생성 repo ?entity s] =>
      change (생성 repo entity s) with (UserRepository.생성 entity s);
      pose proof (생성_fresh entity Hwf eq_refl) as Ec
  end.
  cbv zeta in Ec. rewrite Ec. clear Ec.
  cbn [outcome_of state_of fst snd User.이름 User.이메일 User.활성화
       User.생성일시 UserRepository.rows].
  unfold trimmed in Htrim. rewrite Htrim.
  split; [discriminate |]. split; [| split].
  - apply well_formed_snoc; [assumption | reflexivity | lia].
  - unfold names_unique. simpl. rewrite map_app. simpl.
    apply NoDup_app; [assumption | constructor; [intros [] | constructor] |].
    intros x Hx [<- | []].
    apply in_map_iff in Hx as [u [Hu Hin]]. exact (Hfree u Hin Hu).
  - intros created [= <-]. cbn [User.이름].
    split; [reflexivity | split; [reflexivity | assumption]].
Qed.

Lemma names_unique_session_2 : names_unique session_2.
Proof.
  vm_compute. repeat constructor; simpl; intuition discriminate.
Qed.

Lemma service_create_keeps_names_unique_witness :
  names_unique
    (state_of (UserService.사용자_생성 repo
                 (UserCreateDTO.mk 홍길순 (py "soon@test.com")) session_2))
  /\ names_unique
       (state_of (UserService.사용자_생성 repo
                    (UserCreateDTO.mk 홍길동 (py "soon@test.com")) session_2)).
Proof.
  split.
  - refine (proj1 (proj2 (proj2
              (@service_create_keeps_names_unique session_2
                 (UserCreateDTO.mk 홍길순 (py "soon@test.com"))
                 well_formed_session_2 names_unique_session_2 _)))).
    reflexivity.
  - refine (proj1 (proj2 (proj2
              (@service_create_keeps_names_unique session_2
                 (UserCreateDTO.mk 홍길동 (py "soon@test.com"))
                 well_formed_session_2 names_unique_session_2 _)))).
    reflexivity.
Defined.




